(** * HomGar integration: status codec, device model and cloud client

    A shallow embedding of [custom_components/homgar/devices.py] and of the
    pure decision logic of [custom_components/homgar/api.py], with the
    properties the specification states about them.

    Conventions of the embedding.
    - A Python [str] is a list of characters; characters are Rocq's [ascii]
      (code points 0..255).
    - A Python [int] is a [Z]; a Python [float] is a binary64 value of
      [PrimFloat]; [None] is a constructor of its own.
    - A call that may raise returns a [result]; a method that mutates [self]
      is a function from the object's attributes to a [result] paired with
      the attributes as the call left them (assignments made before a raise
      stay).
    - Log calls have no effect on the modelled state and are left out. *)

From Stdlib Require Import ZArith QArith String Ascii List Lia Bool Floats.
From Stdlib Require Import DecimalString DecimalPos DecimalN DecimalZ.
From stdpp Require Import base gmap strings list.

Set Warnings "-inexact-float,-register-all".
Local Open Scope Z_scope.

(** ** Python values, exceptions and strings *)

Definition str := list ascii.

(** String literals of the source are written as Rocq string literals. *)
Coercion list_ascii_of_string : string >-> list.

Inductive exn :=
| ValueError
| TypeError
| KeyError
| AttributeError
| OverflowError
| HomgarApiException.

Inductive result (A : Type) :=
| Ok (a : A)
| Raise (e : exn).
Arguments Ok {A} a.
Arguments Raise {A} e.

Definition bind {A B} (m : result A) (k : A -> result B) : result B :=
  match m with
  | Ok a => k a
  | Raise e => Raise e
  end.

Declare Scope py_scope.
Delimit Scope py_scope with py.
Notation "x <- m ;; k" := (bind m (fun x => k))
  (at level 100, m at next level, right associativity) : py_scope.
Local Open Scope py_scope.

Definition raises {A} (r : result A) : bool :=
  match r with
  | Ok _ => false
  | Raise _ => true
  end.

Module PyStr.

Definition len (s : str) : Z := Z.of_nat (length s).

Definition str_eqb (a b : str) : bool := bool_decide (a = b).

(** [s.startswith(p)] *)
Fixpoint startswith (p s : str) : bool :=
  match p, s with
  | [], _ => true
  | a :: p', b :: s' => Ascii.eqb a b && startswith p' s'
  | _ :: _, [] => false
  end.

(** [s.find(p)]: the lowest index at which [p] occurs in [s], [-1] when it
    does not occur. *)
Fixpoint find_from (p s : str) (i : Z) : Z :=
  if startswith p s then i
  else match s with
       | [] => -1
       | _ :: s' => find_from p s' (i + 1)
       end.

Definition find (s p : str) : Z := find_from p s 0.

(** [p in s] *)
Definition contains (s p : str) : bool := 0 <=? find s p.

(** A slice bound as Python normalises it: a negative bound counts from the
    end, and every bound is clamped to [0 .. len s]. *)
Definition clamp (n : Z) (i : Z) : nat :=
  Z.to_nat (if i <? 0 then Z.max (i + n) 0 else Z.min i n).

(** [s[i:j]] and [s[i:]] *)
Definition slice (s : str) (i j : Z) : str :=
  let a := clamp (len s) i in
  let b := clamp (len s) j in
  take (b - a) (drop a s).

Definition slice_from (s : str) (i : Z) : str :=
  drop (clamp (len s) i) s.

(** [s.split(sep)] for a one-character separator: always at least one
    piece. *)
Fixpoint split (sep : ascii) (s : str) : list str :=
  match s with
  | [] => [[]]
  | c :: s' =>
      if Ascii.eqb c sep then [] :: split sep s'
      else match split sep s' with
           | piece :: rest => (c :: piece) :: rest
           | [] => [[c]]
           end
  end.

(** *** [int(s, base)]

    CPython's [PyLong_FromString]: optional surrounding white space, an
    optional sign, for base 16 an optional [0x]/[0X] prefix (and one
    underscore after it), then digits, with single underscores allowed
    between digits; at least one digit; nothing else.  For a [str] argument
    the non-ASCII white space is first turned into blanks (in the modelled
    range of characters: U+0085 and U+00A0), and any other non-ASCII
    character makes the conversion fail.  The interpreter's optional cap on
    the number of decimal digits is a run-time setting and is not part of
    the model. *)

Definition code (c : ascii) : Z := Z.of_N (N_of_ascii c).

Definition is_space (c : ascii) : bool :=
  let n := code c in
  ((9 <=? n) && (n <=? 13)) || (n =? 32) || (n =? 133) || (n =? 160).

(** [_PyLong_DigitValue]: [0-9], [a-z], [A-Z] as 0..35; 37 for the rest. *)
Definition digit_value (c : ascii) : Z :=
  let n := code c in
  if (48 <=? n) && (n <=? 57) then n - 48
  else if (97 <=? n) && (n <=? 122) then n - 87
  else if (65 <=? n) && (n <=? 90) then n - 55
  else 37.

Definition is_digit (base : Z) (c : ascii) : bool := digit_value c <? base.

Fixpoint lstrip (s : str) : str :=
  match s with
  | c :: s' => if is_space c then lstrip s' else s
  | [] => []
  end.

(** The digit loop: [acc] is the value read so far, [n] the number of
    digits, [prev_us] whether the previous character was an underscore.
    Gives the value, the digit count and the unread rest; [None] on a
    doubled or a trailing underscore. *)
Fixpoint scan_digits (base : Z) (s : str) (prev_us : bool) (acc : Z) (n : nat)
  : option (Z * nat * str) :=
  match s with
  | c :: s' =>
      if Ascii.eqb c "_" then
        if prev_us then None else scan_digits base s' true acc n
      else if is_digit base c then
        scan_digits base s' false (acc * base + digit_value c) (S n)
      else if prev_us then None else Some (acc, n, s)
  | [] => if prev_us then None else Some (acc, n, s)
  end.

Definition strip_sign (s : str) : bool * str :=
  match s with
  | c :: s' =>
      if Ascii.eqb c "+" then (false, s')
      else if Ascii.eqb c "-" then (true, s')
      else (false, s)
  | [] => (false, s)
  end.

Definition strip_prefix (base : Z) (s : str) : str :=
  match s with
  | z :: x :: s' =>
      if (base =? 16) && Ascii.eqb z "0" && (Ascii.eqb x "x" || Ascii.eqb x "X")
      then match s' with
           | u :: s'' => if Ascii.eqb u "_" then s'' else s'
           | [] => s'
           end
      else s
  | _ => s
  end.

Definition int_of_str (base : Z) (s : str) : result Z :=
  let '(neg, s1) := strip_sign (lstrip s) in
  let s2 := strip_prefix base s1 in
  match s2 with
  | c :: _ => if Ascii.eqb c "_" then Raise ValueError else
      match scan_digits base s2 false 0 0 with
      | Some (v, n, rest) =>
          match n, lstrip rest with
          | S _, [] => Ok (if neg then - v else v)
          | _, _ => Raise ValueError
          end
      | None => Raise ValueError
      end
  | [] => Raise ValueError
  end.

(** [str(z)] for an integer, as an f-string's [{z}] prints it. *)
Definition str_of_int (z : Z) : str :=
  list_ascii_of_string (NilZero.string_of_int (Z.to_int z)).

(** [f"{z:02d}"]: at least two characters, zeros after the sign. *)
Definition format_02d (z : Z) : str :=
  let digits := list_ascii_of_string (NilZero.string_of_uint (N.to_uint (Z.abs_N z))) in
  let body := if (length digits <? 2)%nat then "0"%char :: digits else digits in
  if z <? 0
  then "-"%char :: digits
  else body.

End PyStr.

(** ** Values held by attributes and passed between the decoders *)

(** One irrigation zone: the inner dictionaries of [DiivooWT11W.zones], which
    always carry these four keys. *)
Record zone := Zone {
  active : bool;
  status : str;
  countdown_timer : Z;
  duration_setting : Z
}.

Inductive pyval :=
| PNone
| PBool (b : bool)
| PInt (z : Z)
| PFloat (x : float)
| PStr (s : str)
| PList (l : list str)
| PZones (zs : gmap nat zone).

(** ** Binary64 arithmetic as Python performs it *)

Module PyFloat.

(** [float(z)] for an integer: correctly rounded, [OverflowError] when the
    rounded value is not finite. *)
Definition of_int (z : Z) : result float :=
  match binary_normalize 53 1024 z 0 false with
  | S754_infinity _ => Raise OverflowError
  | f => Ok (SF2Prim f)
  end.

(** [m * 2^e] rounded to the nearest integer, ties to the even one. *)
Definition round_half_even (m e : Z) : Z :=
  if 0 <=? e then m * 2 ^ e
  else
    let d := 2 ^ (- e) in
    let q := m / d in
    let r := m mod d in
    if 2 * r <? d then q
    else if d <? 2 * r then q + 1
    else if Z.even q then q else q + 1.

(** [int(x)] for a float: truncation towards zero; infinities and NaN
    raise. *)
Definition trunc (x : float) : result Z :=
  match Prim2SF x with
  | S754_zero _ => Ok 0
  | S754_finite s m e =>
      let v := if 0 <=? e then Z.pos m * 2 ^ e else Z.pos m / 2 ^ (- e) in
      Ok (if s then - v else v)
  | S754_infinity _ => Raise OverflowError
  | S754_nan => Raise ValueError
  end.

(** [round(x)] with one argument: an [int]; infinities and NaN raise. *)
Definition round (x : float) : result Z :=
  match Prim2SF x with
  | S754_zero _ => Ok 0
  | S754_finite s m e =>
      let v := round_half_even (Z.pos m) e in
      Ok (if s then - v else v)
  | S754_infinity _ => Raise OverflowError
  | S754_nan => Raise ValueError
  end.

End PyFloat.

(** ** Status codec: the two module-level helpers of [devices.py] *)

(** [int(v)] for the values the decoders pass to it. *)
Definition py_int (v : pyval) : result Z :=
  match v with
  | PInt z => Ok z
  | PBool b => Ok (if b then 1 else 0)
  | PStr s => PyStr.int_of_str 10 s
  | PFloat x => PyFloat.trunc x
  | PNone | PList _ | PZones _ => Raise TypeError
  end.

(** [\d] of the [re] module, in the modelled range of characters. *)
Definition is_decimal (c : ascii) : bool :=
  (48 <=? PyStr.code c) && (PyStr.code c <=? 57).

(** The longest run of decimal digits at the head of [s], and what follows
    it: how a greedy [\d+] consumes when the next item of the pattern is a
    character that is no digit. *)
Fixpoint span_digits (s : str) : str * str :=
  match s with
  | c :: s' =>
      if is_decimal c then
        let '(ds, rest) := span_digits s' in (c :: ds, rest)
      else ([], s)
  | [] => ([], [])
  end.

(** One [(\d+)] group followed by the literal character [lit]. *)
Definition group_then (lit : ascii) (s : str) : option (str * str) :=
  match span_digits s with
  | ((_ :: _) as ds, c :: rest) => if Ascii.eqb c lit then Some (ds, rest) else None
  | _ => None
  end.

(** [STATS_VALUE_REGEX.fullmatch(s)] for
    [STATS_VALUE_REGEX = re.compile(r'^(\d+)\((\d+)/(\d+)/(\d+)\)')]:
    the four groups of a match, [None] when [s] does not match in full. *)
Definition STATS_VALUE_REGEX_fullmatch (s : str) : option (str * str * str * str) :=
  match group_then "(" s with
  | Some (g1, r1) =>
    match group_then "/" r1 with
    | Some (g2, r2) =>
      match group_then "/" r2 with
      | Some (g3, r3) =>
        match group_then ")" r3 with
        | Some (g4, []) => Some (g1, g2, g3, g4)
        | _ => None
        end
      | None => None
      end
    | None => None
    end
  | None => None
  end.

(** [_parse_stats_value(s)]: a 4-tuple of [int], or of [None]. *)
Definition _parse_stats_value (s : str) : result (pyval * pyval * pyval * pyval) :=
  match STATS_VALUE_REGEX_fullmatch s with
  | Some (g1, g2, g3, g4) =>
      a <- py_int (PStr g1) ;;
      b <- py_int (PStr g2) ;;
      c <- py_int (PStr g3) ;;
      d <- py_int (PStr g4) ;;
      Ok (PInt a, PInt b, PInt c, PInt d)
  | None => Ok (PNone, PNone, PNone, PNone)
  end.

(** [_temp_to_mk(f)]:
    [round(1000 * ((int(f) * .1 - 32) * 5 / 9 + 273.15))]. *)
Definition _temp_to_mk (f : pyval) : result Z :=
  i <- py_int f ;;
  x <- PyFloat.of_int i ;;
  PyFloat.round (1000 * ((x * 0.1 - 32) * 5 / 9 + 273.15))%float.

(** The f-string [f"{a}({b}/{c}/{d})"], the format [_parse_stats_value]
    reads. *)
Definition format_stats_value (a b c d : Z) : str :=
  PyStr.str_of_int a ++ "(" ++ PyStr.str_of_int b ++ "/" ++
  PyStr.str_of_int c ++ "/" ++ PyStr.str_of_int d ++ ")".

(** ** Objects and methods

    An object is its attribute dictionary.  A method is a function from the
    attributes before the call to the outcome of the call and the attributes
    after it. *)

Abbreviation attrs := (gmap str pyval).

Definition method (A : Type) : Type := attrs -> result A * attrs.

Definition ret {A} (a : A) : method A := fun self => (Ok a, self).

Definition lift {A} (r : result A) : method A := fun self => (r, self).

Definition raise {A} (e : exn) : method A := fun self => (Raise e, self).

Definition mbind {A B} (m : method A) (k : A -> method B) : method B :=
  fun self =>
    match m self with
    | (Ok a, self') => k a self'
    | (Raise e, self') => (Raise e, self')
    end.

Notation "x <~ m ;; k" := (mbind m (fun x => k))
  (at level 100, m at next level, right associativity) : py_scope.
Notation "m ;;; k" := (mbind m (fun _ => k))
  (at level 100, right associativity) : py_scope.

(** [try: m  except Exception as e: h e] *)
Definition try_except (m : method unit) (h : exn -> method unit) : method unit :=
  fun self =>
    match m self with
    | (Ok a, self') => (Ok a, self')
    | (Raise e, self') => h e self'
    end.

(** [self.k = v] *)
Definition setattr (k : str) (v : pyval) : method unit :=
  fun self => (Ok tt, <[k := v]> self).

(** [self.k] *)
Definition getattr (k : str) : method pyval :=
  fun self =>
    match self !! k with
    | Some v => (Ok v, self)
    | None => (Raise AttributeError, self)
    end.

(** [for x in l: body x] *)
Fixpoint for_each {A} (l : list A) (body : A -> method unit) : method unit :=
  match l with
  | [] => ret tt
  | x :: l' => body x ;;; for_each l' body
  end.

(** [enumerate(l, start)] *)
Fixpoint enumerate {A} (start : nat) (l : list A) : list (nat * A) :=
  match l with
  | [] => []
  | x :: l' => (start, x) :: enumerate (S start) l'
  end.

(** The attributes after a call, and its outcome. *)
Definition after {A} (m : method A) (self : attrs) : attrs := (m self).2.
Definition outcome {A} (m : method A) (self : attrs) : result A := (m self).1.

(** The text of an exception, as [str(e)] gives it, is not modelled: the
    name of its class stands for it. *)
Definition str_of_exn (e : exn) : str :=
  match e with
  | ValueError => "ValueError"
  | TypeError => "TypeError"
  | KeyError => "KeyError"
  | AttributeError => "AttributeError"
  | OverflowError => "OverflowError"
  | HomgarApiException => "HomgarApiException"
  end.

(** One entry of [$.data.subDeviceStatus]: [api_obj['id']] and
    [api_obj['value']]. *)
Record api_obj := ApiObj {
  id : str;
  value : str
}.

(** The classes of [devices.py] that are instantiated. *)
Inductive variant :=
| HomgarHubDevice
| HomgarSubDevice
| RainPointDisplayHub
| RainPointSoilMoistureSensor
| RainPointRainSensor
| RainPointAirSensor
| RainPoint2ZoneTimer
| DiivooWT11W
| HWG0538WRF.

(** Whether a class derives from [HomgarHubDevice]. *)
Definition is_hub_class (c : variant) : bool :=
  match c with
  | HomgarHubDevice | RainPointDisplayHub | HWG0538WRF => true
  | _ => false
  end.

(** ** [DiivooWT11W]: the tag-hex decoder *)

Module Diivoo.
Import PyStr.

Definition set_active (b : bool) (z : zone) : zone :=
  Zone b (status z) (countdown_timer z) (duration_setting z).
Definition set_status (s : str) (z : zone) : zone :=
  Zone (active z) s (countdown_timer z) (duration_setting z).
Definition set_countdown_timer (v : Z) (z : zone) : zone :=
  Zone (active z) (status z) v (duration_setting z).
Definition set_duration_setting (v : Z) (z : zone) : zone :=
  Zone (active z) (status z) (countdown_timer z) v.

(** [self.zones[port_num]]: [KeyError] for a missing zone. *)
Definition get_zone (port_num : nat) : method zone :=
  zs <~ getattr "zones" ;;
  match zs with
  | PZones zs =>
      match zs !! port_num with
      | Some z => ret z
      | None => raise KeyError
      end
  | _ => raise TypeError
  end.

(** [self.zones[port_num][key] = v], as the update [f] of the zone. *)
Definition update_zone (port_num : nat) (f : zone -> zone) : method unit :=
  zs <~ getattr "zones" ;;
  match zs with
  | PZones zs =>
      match zs !! port_num with
      | Some z => setattr "zones" (PZones (<[port_num := f z]> zs))
      | None => raise KeyError
      end
  | _ => raise TypeError
  end.

(** [__init__]'s zone table. *)
Definition initial_zones : gmap nat zone :=
  {[ 1%nat := Zone false "off_idle" 0 0;
     2%nat := Zone false "off_idle" 0 0;
     3%nat := Zone false "off_idle" 0 0 ]}.

Definition status_map (status_hex : str) : option str :=
  if str_eqb status_hex "D821" then Some ("on" : str)
  else if str_eqb status_hex "D820" then Some ("off_recent" : str)
  else if str_eqb status_hex "D800" then Some ("off_idle" : str)
  else None.

Definition port_patterns : list str := ["19D8" : str; "1AD8" : str; "1BD8" : str].
Definition timer_patterns : list str := ["21B7" : str; "22B7" : str; "23B7" : str].
Definition duration_patterns : list str := ["25AD" : str; "26AD" : str; "27AD" : str].

(** The body of the loop of [_parse_port_statuses_precise]. *)
Definition parse_port_status (hex_data : str) (port : nat * str) : method unit :=
  let '(port_num, pattern) := port in
  let pattern_pos := find hex_data pattern in
  if (0 <=? pattern_pos) && (pattern_pos + 6 <=? len hex_data) then
    let full_pattern := slice hex_data pattern_pos (pattern_pos + 6) in
    let status_hex := slice_from full_pattern 2 in
    match status_map status_hex with
    | Some st =>
        _old <~ get_zone port_num ;;
        update_zone port_num (set_active (str_eqb st "on")) ;;;
        update_zone port_num (set_status st)
    | None => ret tt
    end
  else ret tt.

Definition _parse_port_statuses_precise (hex_data : str) : method unit :=
  for_each (enumerate 1 port_patterns) (parse_port_status hex_data).

(** The body of the loop of [_parse_countdown_timers_precise]; the inner
    [try] catches [ValueError] only. *)
Definition parse_countdown_timer (hex_data : str) (port : nat * str) : method unit :=
  let '(port_num, pattern) := port in
  let pattern_pos := find hex_data pattern in
  if (0 <=? pattern_pos) && (pattern_pos + 12 <=? len hex_data) then
    let timer_hex := slice hex_data pattern_pos (pattern_pos + 12) in
    if startswith pattern timer_hex then
      let timer_value_hex := slice_from timer_hex 4 in
      match int_of_str 16 timer_value_hex with
      | Ok timer_value =>
          _old <~ get_zone port_num ;;
          update_zone port_num (set_countdown_timer timer_value)
      | Raise ValueError => update_zone port_num (set_countdown_timer 0)
      | Raise e => raise e
      end
    else ret tt
  else ret tt.

Definition _parse_countdown_timers_precise (hex_data : str) : method unit :=
  for_each (enumerate 1 timer_patterns) (parse_countdown_timer hex_data).

(** The body of the loop of [_parse_duration_settings_precise]. *)
Definition parse_duration_setting (hex_data : str) (port : nat * str) : method unit :=
  let '(port_num, pattern) := port in
  let pattern_pos := find hex_data pattern in
  if (0 <=? pattern_pos) && (pattern_pos + 8 <=? len hex_data) then
    let duration_hex := slice hex_data pattern_pos (pattern_pos + 8) in
    if startswith pattern duration_hex then
      let duration_value_hex := slice_from duration_hex 4 in
      match int_of_str 16 duration_value_hex with
      | Ok duration_value =>
          _old <~ get_zone port_num ;;
          update_zone port_num (set_duration_setting duration_value)
      | Raise ValueError => update_zone port_num (set_duration_setting 0)
      | Raise e => raise e
      end
    else ret tt
  else ret tt.

Definition _parse_duration_settings_precise (hex_data : str) : method unit :=
  for_each (enumerate 1 duration_patterns) (parse_duration_setting hex_data).

Definition _parse_hex_status_data (hex_data : str) : method unit :=
  if len hex_data <? 50 then ret tt
  else
    (if 8 <=? len hex_data
     then setattr "sequence" (PStr (slice hex_data 2 8))
     else ret tt) ;;;
    _parse_port_statuses_precise hex_data ;;;
    _parse_countdown_timers_precise hex_data ;;;
    _parse_duration_settings_precise hex_data.

Definition _parse_device_specific_status_d_value (s : str) : method unit :=
  setattr "raw_status" (PStr s) ;;;
  if negb (contains s "#") then ret tt
  else
    let parts := split "#" s in
    if (length parts <? 2)%nat then ret tt
    else
      let hex_data := nth 1 parts [] in
      setattr "hex_status_data" (PStr hex_data) ;;;
      try_except (_parse_hex_status_data hex_data)
                 (fun e => setattr "parse_error" (PStr (str_of_exn e))).

End Diivoo.

(** ** The device classes: status decoding *)

Module Devices.
Import PyStr.

(** [f"D{self.address:02d}"] *)
Definition status_id_of_address : method str :=
  a <~ getattr "address" ;;
  match a with
  | PInt z => ret (("D" : str) ++ format_02d z)
  | PBool b => ret (("D" : str) ++ format_02d (if b then 1 else 0))
  | PStr _ | PFloat _ => raise ValueError
  | PNone | PList _ | PZones _ => raise TypeError
  end.

(** [HomgarDevice._parse_general_status_d_value] *)
Definition _parse_general_status_d_value (s : str) : method unit :=
  match split "," s with
  | [unknown_1; rf_rssi; unknown_2] =>
      v <~ lift (py_int (PStr rf_rssi)) ;;
      setattr "rf_rssi" (PInt v)
  | _ => raise ValueError
  end.

(** [[f(v) for v in t]] for a 4-tuple [t]: left to right, the first raise
    ends it. *)
Definition map4 (f : pyval -> result pyval) (t : pyval * pyval * pyval * pyval)
  : result (pyval * pyval * pyval * pyval) :=
  let '(a, b, c, d) := t in
  a' <- f a ;; b' <- f b ;; c' <- f c ;; d' <- f d ;; Ok (a', b', c', d').

(** [self.k1, self.k2, self.k3, self.k4 = t] *)
Definition setattr4 (k1 k2 k3 k4 : str) (t : pyval * pyval * pyval * pyval)
  : method unit :=
  let '(a, b, c, d) := t in
  setattr k1 a ;;; setattr k2 b ;;; setattr k3 c ;;; setattr k4 d.

Definition temp_to_mk_val (v : pyval) : result pyval :=
  mk <- _temp_to_mk v ;; Ok (PInt mk).

(** [.1 * v] and [v * .1]: a [float] for a number, [TypeError] for
    [None]. *)
Definition tenth_of (v : pyval) : result pyval :=
  match v with
  | PInt z => x <- PyFloat.of_int z ;; Ok (PFloat (0.1 * x)%float)
  | PBool b => Ok (PFloat (0.1 * (if b then 1 else 0))%float)
  | PFloat x => Ok (PFloat (0.1 * x)%float)
  | _ => Raise TypeError
  end.

(** [RainPointDisplayHub._parse_device_specific_status_d_value] *)
Definition display_hub_specific (s : str) : method unit :=
  match split "," s with
  | temp_str :: hum_str :: press_str :: _ =>
      stats <~ lift (_parse_stats_value temp_str) ;;
      temps <~ lift (map4 temp_to_mk_val stats) ;;
      setattr4 "temp_mk_current" "temp_mk_daily_max" "temp_mk_daily_min"
               "temp_trend" temps ;;;
      hums <~ lift (_parse_stats_value hum_str) ;;
      setattr4 "hum_current" "hum_daily_max" "hum_daily_min" "hum_trend" hums ;;;
      press <~ lift (_parse_stats_value (slice_from press_str 2)) ;;
      setattr4 "press_pa_current" "press_pa_daily_max" "press_pa_daily_min"
               "press_trend" press
  | _ => raise ValueError
  end.

(** [RainPointSoilMoistureSensor._parse_device_specific_status_d_value] *)
Definition soil_moisture_specific (s : str) : method unit :=
  match split "," s with
  | [temp_str; moist_str; light_str] =>
      t <~ lift (_temp_to_mk (PStr temp_str)) ;;
      setattr "temp_mk_current" (PInt t) ;;;
      m <~ lift (py_int (PStr moist_str)) ;;
      setattr "moist_percent_current" (PInt m) ;;;
      l <~ lift (py_int (PStr (slice_from light_str 2))) ;;
      lx <~ lift (tenth_of (PInt l)) ;;
      setattr "light_lux_current" lx
  | _ => raise ValueError
  end.

(** [RainPointRainSensor._parse_device_specific_status_d_value] *)
Definition rain_sensor_specific (s : str) : method unit :=
  stats <~ lift (_parse_stats_value (slice_from s 2)) ;;
  mm <~ lift (map4 tenth_of stats) ;;
  setattr4 "rainfall_mm_total" "rainfall_mm_hour" "rainfall_mm_daily"
           "rainfall_mm_7days" mm.

(** [RainPointAirSensor._parse_device_specific_status_d_value] *)
Definition air_sensor_specific (s : str) : method unit :=
  match split "," s with
  | temp_str :: hum_str :: _ =>
      stats <~ lift (_parse_stats_value temp_str) ;;
      temps <~ lift (map4 temp_to_mk_val stats) ;;
      setattr4 "temp_mk_current" "temp_mk_daily_max" "temp_mk_daily_min"
               "temp_trend" temps ;;;
      hums <~ lift (_parse_stats_value hum_str) ;;
      setattr4 "hum_current" "hum_daily_max" "hum_daily_min" "hum_trend" hums
  | _ => raise ValueError
  end.

(** [_parse_device_specific_status_d_value], by the class of [self]; the
    remaining classes define it as [pass]. *)
Definition _parse_device_specific_status_d_value (c : variant) (s : str)
  : method unit :=
  match c with
  | RainPointDisplayHub => display_hub_specific s
  | RainPointSoilMoistureSensor => soil_moisture_specific s
  | RainPointRainSensor => rain_sensor_specific s
  | RainPointAirSensor => air_sensor_specific s
  | DiivooWT11W => Diivoo._parse_device_specific_status_d_value s
  | HomgarHubDevice | HomgarSubDevice | RainPoint2ZoneTimer | HWG0538WRF => ret tt
  end.

(** [HomgarDevice._parse_status_d_value] *)
Definition _parse_status_d_value (c : variant) (val : str) : method unit :=
  match split ";" val with
  | [general_str; specific_str] =>
      _parse_general_status_d_value general_str ;;;
      _parse_device_specific_status_d_value c specific_str
  | _ => raise ValueError
  end.

(** [HomgarDevice.set_device_status] *)
Definition base_set_device_status (c : variant) (o : api_obj) : method unit :=
  d <~ status_id_of_address ;;
  if str_eqb (id o) d then _parse_status_d_value c (value o) else ret tt.

(** [RainPointDisplayHub.set_device_status] *)
Definition display_hub_set_device_status (o : api_obj) : method unit :=
  let dev_id := id o in
  let val := value o in
  if str_eqb dev_id "state" then
    match split "," val with
    | [b; w] =>
        b' <~ lift (py_int (PStr b)) ;;
        w' <~ lift (py_int (PStr w)) ;;
        setattr "battery_state" (PInt b') ;;;
        setattr "wifi_rssi" (PInt w')
    | l =>
        for_each l (fun s => _v <~ lift (py_int (PStr s)) ;; ret tt) ;;;
        raise ValueError
    end
  else if str_eqb dev_id "connected" then
    v <~ lift (py_int (PStr val)) ;;
    setattr "connected" (PBool (v =? 1))
  else base_set_device_status RainPointDisplayHub o.

(** [DiivooWT11W.set_device_status] *)
Definition diivoo_set_device_status (o : api_obj) : method unit :=
  let dev_id := id o in
  let val := value o in
  if str_eqb dev_id "connected" then
    v <~ lift (py_int (PStr val)) ;;
    setattr "connection_state" (PBool (v =? 1))
  else if str_eqb dev_id "state" then
    setattr "device_state" (PStr val)
  else
    d <~ status_id_of_address ;;
    if str_eqb dev_id d then
      (* zones_before: a copy of each zone, for the log *)
      for_each [1%nat; 2%nat; 3%nat]
               (fun n => _z <~ Diivoo.get_zone n ;; ret tt) ;;;
      Diivoo._parse_device_specific_status_d_value val ;;;
      for_each [1%nat; 2%nat; 3%nat]
               (fun n => _z <~ Diivoo.get_zone n ;; ret tt)
    else ret tt.

(** [set_device_status], by the class of [self]. *)
Definition set_device_status (c : variant) (o : api_obj) : method unit :=
  match c with
  | RainPointDisplayHub => display_hub_set_device_status o
  | DiivooWT11W => diivoo_set_device_status o
  | _ => base_set_device_status c o
  end.

End Devices.

(** ** The device classes: construction *)

(** A device object: its class, its attributes, and for a hub the list held
    by its [subdevices] attribute ([None] when the object has no such
    attribute). *)
Inductive device := Device {
  dev_class : variant;
  dev_attrs : attrs;
  dev_subdevices : option (list device)
}.

Module Construct.

(** A required keyword parameter: [TypeError] when the call does not pass
    it. *)
Definition arg (k : str) (kw : attrs) : result pyval :=
  match kw !! k with
  | Some v => Ok v
  | None => Raise TypeError
  end.

(** A keyword parameter with the default [None]. *)
Definition arg_default (k : str) (kw : attrs) : pyval := default PNone (kw !! k).

Definition set_all (ks : list str) (v : pyval) (self : attrs) : attrs :=
  foldr (fun k acc => <[k := v]> acc) self ks.

(** [HomgarDevice.__init__(self, model, model_code, name, did, mid, alerts,
    **kwargs)] *)
Definition HomgarDevice_init (kw : attrs) : result attrs :=
  model <- arg "model" kw ;;
  model_code <- arg "model_code" kw ;;
  name <- arg "name" kw ;;
  did <- arg "did" kw ;;
  mid <- arg "mid" kw ;;
  alerts <- arg "alerts" kw ;;
  Ok (<[("rf_rssi" : str) := PNone]>
     (<[("address" : str) := PNone]>
     (<[("alerts" : str) := alerts]>
     (<[("mid" : str) := mid]>
     (<[("did" : str) := did]>
     (<[("name" : str) := name]>
     (<[("model_code" : str) := model_code]>
     (<[("model" : str) := model]> ∅)))))))).

(** [HomgarHubDevice.__init__(self, subdevices, hub_device_name=None,
    hub_product_key=None, **kwargs)]; [subs] is the [subdevices] argument
    when the call passes one. *)
Definition HomgarHubDevice_init (subs : option (list device)) (kw : attrs)
  : result (attrs * option (list device)) :=
  match subs with
  | None => Raise TypeError
  | Some l =>
      self <- HomgarDevice_init kw ;;
      Ok (<[("hub_product_key" : str) := arg_default "hub_product_key" kw]>
         (<[("hub_device_name" : str) := arg_default "hub_device_name" kw]>
         (<[("address" : str) := PInt 1]> self)), Some l)
  end.

(** [HomgarSubDevice.__init__(self, address, port_number, **kwargs)]; a
    [subdevices] argument, when passed, ends unused in [**kwargs]. *)
Definition HomgarSubDevice_init (kw : attrs) : result attrs :=
  address <- arg "address" kw ;;
  port_number <- arg "port_number" kw ;;
  self <- HomgarDevice_init kw ;;
  Ok (<[("port_number" : str) := port_number]>
     (<[("address" : str) := address]> self)).

Definition display_hub_fields : list str :=
  [ "wifi_rssi" : str; "battery_state" : str; "connected" : str;
    "temp_mk_current" : str; "temp_mk_daily_max" : str;
    "temp_mk_daily_min" : str; "temp_trend" : str;
    "hum_current" : str; "hum_daily_max" : str; "hum_daily_min" : str;
    "hum_trend" : str;
    "press_pa_current" : str; "press_pa_daily_max" : str;
    "press_pa_daily_min" : str; "press_trend" : str ].

Definition soil_moisture_fields : list str :=
  [ "temp_mk_current" : str; "moist_percent_current" : str;
    "light_lux_current" : str ].

Definition rain_sensor_fields : list str :=
  [ "rainfall_mm_total" : str; "rainfall_mm_hour" : str;
    "rainfall_mm_daily" : str ].

Definition air_sensor_fields : list str :=
  [ "temp_mk_current" : str; "temp_mk_daily_max" : str;
    "temp_mk_daily_min" : str; "temp_trend" : str;
    "hum_current" : str; "hum_daily_max" : str; "hum_daily_min" : str;
    "hum_trend" : str ].

(** [DiivooWT11W.__init__(self, hub_device_name=None, hub_product_key=None,
    **kwargs)] *)
Definition DiivooWT11W_init (kw : attrs) : result attrs :=
  self <- HomgarSubDevice_init kw ;;
  Ok (<[("hub_product_key" : str) := arg_default "hub_product_key" kw]>
     (<[("hub_device_name" : str) := arg_default "hub_device_name" kw]>
     (<[("device_state" : str) := PNone]>
     (<[("connection_state" : str) := PNone]>
     (<[("zones" : str) := PZones Diivoo.initial_zones]> self))))).

(** The call of class [c] with the keyword arguments [kw], and with
    [subdevices=l] besides when [subs] is [Some l]. *)
Definition construct (c : variant) (kw : attrs) (subs : option (list device))
  : result device :=
  match c with
  | HomgarHubDevice | HWG0538WRF =>
      r <- HomgarHubDevice_init subs kw ;; Ok (Device c r.1 r.2)
  | RainPointDisplayHub =>
      r <- HomgarHubDevice_init subs kw ;;
      Ok (Device c (set_all display_hub_fields PNone r.1) r.2)
  | HomgarSubDevice | RainPoint2ZoneTimer =>
      self <- HomgarSubDevice_init kw ;; Ok (Device c self None)
  | RainPointSoilMoistureSensor =>
      self <- HomgarSubDevice_init kw ;;
      Ok (Device c (set_all soil_moisture_fields PNone self) None)
  | RainPointRainSensor =>
      self <- HomgarSubDevice_init kw ;;
      Ok (Device c (set_all rain_sensor_fields PNone self) None)
  | RainPointAirSensor =>
      self <- HomgarSubDevice_init kw ;;
      Ok (Device c (set_all air_sensor_fields PNone self) None)
  | DiivooWT11W =>
      self <- DiivooWT11W_init kw ;; Ok (Device c self None)
  end.

(** [MODEL_CODE_MAPPING], from the [MODEL_CODES] of each class. *)
Definition MODEL_CODE_MAPPING : gmap Z variant :=
  {[ 264 := RainPointDisplayHub;
     72 := RainPointSoilMoistureSensor;
     87 := RainPointRainSensor;
     262 := RainPointAirSensor;
     261 := RainPoint2ZoneTimer;
     271 := DiivooWT11W;
     256 := HWG0538WRF ]}.

End Construct.

(** ** The cloud client ([api.py]) *)

Module Api.
Import Construct.

(** *** Device discovery *)

(** One device record of the [getDeviceByHid] response, with the types the
    vendor's API gives its fields; [None] is an absent (or null) field. *)
Record dev_data := DevData {
  model : option str;
  modelCode : option Z;
  name : option str;
  did : option Z;
  mid : option Z;
  addr : option Z;
  portNumber : option Z;
  alerts : option (list str);
  deviceName : option str;
  productKey : option str
}.

(** One hub record: its own fields and its [subDevices] list. *)
Record hub_data := HubData {
  hub : dev_data;
  subDevices : option (list dev_data)
}.

Definition of_str (o : option str) : pyval :=
  match o with Some s => PStr s | None => PNone end.
Definition of_int (o : option Z) : pyval :=
  match o with Some z => PInt z | None => PNone end.
Definition of_list (o : option (list str)) : pyval :=
  match o with Some l => PList l | None => PNone end.

(** The local function [device_base_props] of [get_devices_for_hid]. *)
Definition device_base_props (d : dev_data) : attrs :=
  <[("alerts" : str) := of_list (alerts d)]>
  (<[("port_number" : str) := of_int (portNumber d)]>
  (<[("address" : str) := of_int (addr d)]>
  (<[("mid" : str) := of_int (mid d)]>
  (<[("did" : str) := of_int (did d)]>
  (<[("name" : str) := of_str (name d)]>
  (<[("model_code" : str) := of_int (modelCode d)]>
  (<[("model" : str) := of_str (model d)]> ∅))))))).

(** The local function [get_device_class]: [None] (after a warning) for a
    model code that is no key of [MODEL_CODE_MAPPING]. *)
Definition get_device_class (d : dev_data) : option variant :=
  match modelCode d with
  | Some code => MODEL_CODE_MAPPING !! code
  | None => None
  end.

(** The keyword arguments of a device built for record [d] of hub record
    [h]. *)
Definition props_with_hub (h d : dev_data) : attrs :=
  <[("hub_product_key" : str) := of_str (productKey h)]>
  (<[("hub_device_name" : str) := of_str (deviceName h)]>
  (device_base_props d)).

(** The inner loop of [get_devices_for_hid], over the [subDevices] of hub
    record [h]. *)
Fixpoint build_subdevices (h : dev_data) (l : list dev_data) : result (list device) :=
  match l with
  | [] => Ok []
  | subdevice_data :: l' =>
      if bool_decide (did subdevice_data = Some 1) then build_subdevices h l'
      else
        match get_device_class subdevice_data with
        | None => build_subdevices h l'
        | Some subdevice_class =>
            d <- construct subdevice_class (props_with_hub h subdevice_data) None ;;
            rest <- build_subdevices h l' ;;
            Ok (d :: rest)
        end
  end.

(** The body of the outer loop: the hub object for one hub record. *)
Definition build_hub (hd : hub_data) : result device :=
  subdevices <- build_subdevices (hub hd) (default [] (subDevices hd)) ;;
  let hub_class := default HomgarHubDevice (get_device_class (hub hd)) in
  construct hub_class (props_with_hub (hub hd) (hub hd)) (Some subdevices).

(** [get_devices_for_hid], on the data of the response. *)
Fixpoint get_devices_for_hid (data : list hub_data) : result (list device) :=
  match data with
  | [] => Ok []
  | hd :: data' =>
      h <- build_hub hd ;;
      hubs <- get_devices_for_hid data' ;;
      Ok (h :: hubs)
  end.

(** *** Authentication and the push subscription

    Clock readings and the numbers of the auth cache and of the
    subscription response are exact rationals: the rounding of binary64 and
    of [datetime]'s microseconds is not part of this model. *)

Inductive jval :=
| JNull
| JBool (b : bool)
| JNum (q : Q)
| JStr (s : str).

(** Truth value of a value in a condition. *)
Definition truthy (v : jval) : bool :=
  match v with
  | JNull => false
  | JBool b => b
  | JNum q => negb (Qeq_bool q 0)
  | JStr s => negb (bool_decide (s = []))
  end.

(** A value as a number in arithmetic with a [float]. *)
Definition as_number (v : jval) : result Q :=
  match v with
  | JNum q => Ok q
  | JBool b => Ok (if b then 1 else 0)%Q
  | JNull | JStr _ => Raise TypeError
  end.

(** What the client reads from its surroundings: the naive UTC reading of
    the clock ([datetime.utcnow()], in seconds since the epoch of naive
    datetimes), the offset of the host's local time zone from UTC (in
    seconds), the MD5 digest, the random device identifier of a login, and
    the server's answer to a login request. *)
Record env := Env {
  utcnow : Q;
  utcoffset : Q;
  md5_hexdigest : str -> str;
  urandom_hex : str;
  post_login : gmap str jval -> result (gmap str jval)
}.

(** [datetime.fromtimestamp(t)]: the naive local date and time of POSIX
    time [t]. *)
Definition fromtimestamp (e : env) (t : Q) : Q := (t + utcoffset e)%Q.

(** [d.timestamp()] for a naive [d]: [d] is read as local time. *)
Definition timestamp (e : env) (d : Q) : Q := (d - utcoffset e)%Q.

(** The part of a [HomgarApi] object the modelled methods use; [logins]
    records the bodies of the login requests sent, latest first. *)
Record HomgarApi := Client {
  cache : gmap str jval;
  subscription_data : option (gmap str jval);
  logins : list (gmap str jval)
}.

Definition set_cache (k : str) (v : jval) (self : HomgarApi) : HomgarApi :=
  Client (<[k := v]> (cache self)) (subscription_data self) (logins self).

Definition get (d : gmap str jval) (k : str) : jval := default JNull (d !! k).

(** [login]: the request is sent, then the four entries of the cache are
    written in turn. *)
Definition login (e : env) (email password area_code : str) (self : HomgarApi)
  : result unit * HomgarApi :=
  let body : gmap str jval :=
    <[("deviceId" : str) := JStr (urandom_hex e)]>
    (<[("password" : str) := JStr (md5_hexdigest e password)]>
    (<[("phoneOrEmail" : str) := JStr email]>
    (<[("areaCode" : str) := JStr area_code]> ∅))) in
  let sent := Client (cache self) (subscription_data self) (body :: logins self) in
  match post_login e body with
  | Raise x => (Raise x, sent)
  | Ok data =>
      let s1 := set_cache "email" (JStr email) sent in
      let s2 := set_cache "token" (get data "token") s1 in
      match as_number (get data "tokenExpired") with
      | Raise x => (Raise x, s2)
      | Ok ttl =>
          let s3 := set_cache "token_expires"
                      (JNum (timestamp e (utcnow e) + ttl)) s2 in
          (Ok tt, set_cache "refresh_token" (get data "refreshToken") s3)
      end
  end.

(** [v == email] for the value [v] that [cache.get('email')] gives ([None]
    for a missing key). *)
Definition is_email (v : option jval) (email : str) : bool :=
  match v with
  | Some (JStr s) => bool_decide (s = email)
  | _ => false
  end.

(** The condition of [ensure_logged_in]. *)
Definition must_login (e : env) (email : str) (self : HomgarApi) : result bool :=
  if negb (is_email (cache self !! ("email" : str)) email)
  then Ok true
  else
    t <- as_number (default (JNum 0) (cache self !! ("token_expires" : str))) ;;
    Ok (negb (Qle_bool (60 * 60) (fromtimestamp e t - utcnow e))).

Definition ensure_logged_in (e : env) (email password area_code : str)
  (self : HomgarApi) : result unit * HomgarApi :=
  match must_login e email self with
  | Ok true => login e email password area_code self
  | Ok false => (Ok tt, self)
  | Raise x => (Raise x, self)
  end.

(** [datetime.utcnow().timestamp() * 1000]: the current time in
    milliseconds as [is_subscription_expired] computes it. *)
Definition current_time (e : env) : Q := (timestamp e (utcnow e) * 1000)%Q.

(** [is_subscription_expired] *)
Definition is_subscription_expired (e : env) (self : HomgarApi) : result bool :=
  match subscription_data self with
  | None => Ok true
  | Some sd =>
      if bool_decide (sd = ∅) then Ok true
      else
        let expire_timestamp := get sd "expire" in
        if negb (truthy expire_timestamp) then Ok true
        else
          x <- as_number expire_timestamp ;;
          let time_until_expiry := (x - current_time e)%Q in
          Ok (Qle_bool time_until_expiry 300000)
  end.

End Api.

(** ** Notions the properties are stated with *)

(** A non-empty sequence of decimal digits, and the integer it denotes. *)
Definition digit_sequence (s : str) : Prop :=
  s <> [] /\ Forall (fun c => is_decimal c = true) s.

Definition decimal_value (s : str) : Z :=
  fold_left (fun acc c => acc * 10 + (PyStr.code c - 48)) s 0.

(** The characters of a decimal numeral of the standard library. *)
Definition uint_chars (d : Decimal.uint) : str :=
  list_ascii_of_string (NilEmpty.string_of_uint d).

(** The shape ["A(B/C/D)"]. *)
Definition stats_shape (a b c d : str) : str :=
  a ++ "(" ++ b ++ "/" ++ c ++ "/" ++ d ++ ")".

(** A sequence of hexadecimal digits, and its value read big-endian (most
    significant digit first). *)
Definition hex_digits (s : str) : Prop :=
  Forall (fun c => PyStr.is_digit 16 c = true) s.

Definition big_endian_value (s : str) : Z :=
  fold_left (fun acc c => acc * 16 + PyStr.digit_value c) s 0.

(** [p] occurs in [s] at index [i]; [i] is its first occurrence; [p] does
    not occur in [s]. *)
Definition occurs_at (s p : str) (i : Z) : Prop :=
  0 <= i /\ PyStr.slice s i (i + PyStr.len p) = p.

Definition first_occurrence (s p : str) (i : Z) : Prop :=
  occurs_at s p i /\ forall j, j < i -> ~ occurs_at s p j.

Definition absent (s p : str) : Prop := forall j, ~ occurs_at s p j.

(** Zone [n] of a device object. *)
Definition zone_of (self : attrs) (n : nat) : option zone :=
  match self !! ("zones" : str) with
  | Some (PZones zs) => zs !! n
  | _ => None
  end.

(** The object carries a zone table with the zones 1, 2 and 3, as
    [DiivooWT11W.__init__] leaves it and every decoder keeps it. *)
Definition has_zones (self : attrs) : Prop :=
  is_Some (zone_of self 1) /\ is_Some (zone_of self 2) /\ is_Some (zone_of self 3).

(** The text after ['#'] that [DiivooWT11W] decodes: [s.split('#')[1]]. *)
Definition hex_part (s : str) : str := nth 1 (PyStr.split "#" s) [].

(** The temperature formula in exact rational arithmetic, rounded to the
    nearest integer. *)
Definition round_nearest (q : Q) : Z :=
  let n := Qnum q in
  let d := Z.pos (Qden q) in
  let f := n / d in
  let r := n mod d in
  if 2 * r <? d then f
  else if d <? 2 * r then f + 1
  else if Z.even f then f else f + 1.

Definition mK_exact (raw : Z) : Z :=
  round_nearest (1000 * ((inject_Z raw * (1 # 10) - 32) * 5 / 9 + (27315 # 100)))%Q.

(** The temperature formula as the specification writes it, evaluated in
    binary64 as Python evaluates it. *)
Definition mK_formula (raw : Z) : result Z :=
  x <- PyFloat.of_int raw ;;
  PyFloat.round (1000 * ((x * 0.1 - 32) * 5 / 9 + 273.15))%float.

(** [check_range f lo n]: [f] holds on the [n] integers from [lo] on. *)
Fixpoint check_range (f : Z -> bool) (lo : Z) (n : nat) : bool :=
  match n with
  | O => true
  | S n' => f lo && check_range f (lo + 1) n'
  end.

(** [_temp_to_mk] returns, at [raw], the exactly rounded value. *)
Definition agrees_with_exact (raw : Z) : bool :=
  match _temp_to_mk (PInt raw) with
  | Ok v => v =? mK_exact raw
  | Raise _ => false
  end.

(** The attributes a class's [_parse_device_specific_status_d_value] may
    assign. *)

Definition temp_fields : list str :=
  [ "temp_mk_current" : str; "temp_mk_daily_max" : str;
    "temp_mk_daily_min" : str; "temp_trend" : str ].
Definition hum_fields : list str :=
  [ "hum_current" : str; "hum_daily_max" : str; "hum_daily_min" : str;
    "hum_trend" : str ].
Definition press_fields : list str :=
  [ "press_pa_current" : str; "press_pa_daily_max" : str;
    "press_pa_daily_min" : str; "press_trend" : str ].

Definition decoded_fields (c : variant) : list str :=
  match c with
  | RainPointDisplayHub => temp_fields ++ hum_fields ++ press_fields
  | RainPointAirSensor => temp_fields ++ hum_fields
  | RainPointSoilMoistureSensor =>
      [ "temp_mk_current" : str; "moist_percent_current" : str;
        "light_lux_current" : str ]
  | RainPointRainSensor =>
      [ "rainfall_mm_total" : str; "rainfall_mm_hour" : str;
        "rainfall_mm_daily" : str; "rainfall_mm_7days" : str ]
  | DiivooWT11W =>
      [ "raw_status" : str; "hex_status_data" : str; "parse_error" : str;
        "sequence" : str; "zones" : str ]
  | HomgarHubDevice | HomgarSubDevice | RainPoint2ZoneTimer | HWG0538WRF => []
  end.

(** The attributes [set_device_status] may assign, by class. *)
Definition written_fields (c : variant) : list str :=
  match c with
  | RainPointDisplayHub =>
      [ "battery_state" : str; "wifi_rssi" : str; "connected" : str;
        "rf_rssi" : str ] ++ decoded_fields c
  | DiivooWT11W =>
      [ "connection_state" : str; "device_state" : str ] ++ decoded_fields c
  | _ => ("rf_rssi" : str) :: decoded_fields c
  end.

(** The attributes a decode pass may overwrite with [None]. *)
Definition nullable_fields (c : variant) : list str :=
  match c with
  | RainPointDisplayHub => hum_fields ++ press_fields
  | RainPointAirSensor => hum_fields
  | _ => []
  end.

(** What each loop body of the tag-hex decoder does to the zone it
    addresses. *)
Definition status_update (hex_data pattern : str) (z : zone) : zone :=
  let pos := PyStr.find hex_data pattern in
  if (0 <=? pos) && (pos + 6 <=? PyStr.len hex_data) then
    match Diivoo.status_map
            (PyStr.slice_from (PyStr.slice hex_data pos (pos + 6)) 2) with
    | Some st => Diivoo.set_status st (Diivoo.set_active (PyStr.str_eqb st "on") z)
    | None => z
    end
  else z.

Definition timer_update (hex_data pattern : str) (z : zone) : zone :=
  let pos := PyStr.find hex_data pattern in
  if (0 <=? pos) && (pos + 12 <=? PyStr.len hex_data) then
    if PyStr.startswith pattern (PyStr.slice hex_data pos (pos + 12)) then
      match PyStr.int_of_str 16
              (PyStr.slice_from (PyStr.slice hex_data pos (pos + 12)) 4) with
      | Ok v => Diivoo.set_countdown_timer v z
      | Raise _ => Diivoo.set_countdown_timer 0 z
      end
    else z
  else z.

Definition duration_update (hex_data pattern : str) (z : zone) : zone :=
  let pos := PyStr.find hex_data pattern in
  if (0 <=? pos) && (pos + 8 <=? PyStr.len hex_data) then
    if PyStr.startswith pattern (PyStr.slice hex_data pos (pos + 8)) then
      match PyStr.int_of_str 16
              (PyStr.slice_from (PyStr.slice hex_data pos (pos + 8)) 4) with
      | Ok v => Diivoo.set_duration_setting v z
      | Raise _ => Diivoo.set_duration_setting 0 z
      end
    else z
  else z.

(** The object with its zone table replaced. *)
Definition with_zones (zs : gmap nat zone) (self : attrs) : attrs :=
  <[("zones" : str) := PZones zs]> self.

(** The zone table after a loop over the three zones that applies [upd] to
    each. *)
Definition zones_updated (upd : str -> zone -> zone) (patterns : list str)
  (zs : gmap nat zone) : gmap nat zone :=
  alter (upd (nth 2 patterns [])) 3%nat
    (alter (upd (nth 1 patterns [])) 2%nat
       (alter (upd (nth 0 patterns [])) 1%nat zs)).

(** ** Example objects and payloads *)

(** The irrigation timer of the specification's scenario: address 5, model
    code 271, behind a hub. *)
Definition example_hub_record : Api.dev_data :=
  Api.DevData (Some ("Hub" : str)) (Some 264) (Some ("Garden hub" : str))
              (Some 10) (Some 77) (Some 1) (Some 0) (Some [])
              (Some ("MAC-0011223344" : str)) (Some ("pk1" : str)).

Definition example_timer_record : Api.dev_data :=
  Api.DevData (Some ("WT-11W" : str)) (Some 271) (Some ("Timer" : str))
              (Some 11) (Some 77) (Some 5) (Some 3) (Some []) None None.

Definition attrs_of (r : result device) : attrs :=
  match r with
  | Ok d => dev_attrs d
  | Raise _ => ∅
  end.

Definition example_timer : attrs :=
  attrs_of (Construct.construct DiivooWT11W
              (Api.props_with_hub example_hub_record example_timer_record) None).

Definition example_display_hub : attrs :=
  attrs_of (Construct.construct RainPointDisplayHub
              (Api.props_with_hub example_hub_record example_hub_record) (Some [])).

(** The stream of the docstring of [DiivooWT11W]: zone 1 on, zones 2 and 3
    idle. *)
Definition example_stream : str :=
  "17E19F0019D8211AD8001BD8001D201E201F2018DC0121B79AE7DE1522B70000000023B70000000025ADDC0526AD000027AD0000".

(** The same stream with the sequence number [19D800]: the text [19D8]
    occurs in the sequence field, before the tag of zone 1. *)
Definition stream_with_early_tag : str :=
  "1719D80019D8211AD8001BD8001D201E201F2018DC0121B79AE7DE1522B70000000023B70000000025ADDC0526AD000027AD0000".

(** ** Relating the object before and after a call *)

(** Every call of [m] relates the attributes before it to those after it
    by [R]. *)
Definition respects (R : attrs -> attrs -> Prop) {A} (m : method A) : Prop :=
  forall self, R self (after m self).

(** Attribute [k] is left as it was. *)
Definition same_at (k : str) (before after : attrs) : Prop :=
  after !! k = before !! k.

(** Attribute [k] is not overwritten with [None]. *)
Definition not_nulled_at (k : str) (before after : attrs) : Prop :=
  after !! k = Some PNone -> before !! k = Some PNone.

(** The three status tags alone: 18 characters. *)
Definition short_stream : str := "19D8211AD8001BD800".

(** Status values for the display hub: a well-formed one, one whose
    humidity group is garbled, one whose temperature group is garbled, and
    one without the [';'] that separates its two parts. *)
Definition hub_payload : str :=
  "1,-40,1;781(781/723/1),52(64/50/1),P=10213(10222/10205/1),".
Definition hub_payload_garbled_humidity : str :=
  "1,-40,1;781(781/723/1),5x(64/50/1),P=10213(10222/10205/1),".
Definition hub_payload_garbled_temperature : str :=
  "1,-40,1;7x1(781/723/1),52(64/50/1),P=10213(10222/10205/1),".
Definition hub_payload_truncated : str := "1,-40,1".

(** A timer payload whose hex part is shorter than 50 characters and holds
    a status, a timer and a duration tag. *)
Definition short_timer_payload : str :=
  "1,-40,2;11#19D82121B79AE7DE1525ADDC05".

(** ** Notions for the cloud client *)

(** The cached token's expiry as a date and time:
    [datetime.fromtimestamp(cache.get('token_expires', 0))]. *)
Definition cached_expiry (e : Api.env) (self : Api.HomgarApi) : Q :=
  Api.fromtimestamp e
    (match Api.cache self !! ("token_expires" : str) with
     | Some (Api.JNum t) => t
     | _ => 0
     end).

(** The cached identity differs from the requested one, or the cached
    token expires less than 60 minutes after the current time. *)
Definition login_due (e : Api.env) (email : str) (self : Api.HomgarApi) : Prop :=
  Api.cache self !! ("email" : str) <> Some (Api.JStr email) \/
  (cached_expiry e self - Api.utcnow e < 60 * 60)%Q.

(** A subdevice record is kept by [get_devices_for_hid]. *)
Definition kept (d : Api.dev_data) : bool :=
  negb (bool_decide (Api.did d = Some 1)) &&
  bool_decide (is_Some (Api.get_device_class d)).

(** The object built for a kept subdevice record [d] of hub record [h]. *)
Definition subdevice_object (h d : Api.dev_data) : option device :=
  match Api.get_device_class d with
  | Some c =>
      match Construct.construct c (Api.props_with_hub h d) None with
      | Ok o => Some o
      | Raise _ => None
      end
  | None => None
  end.

(** No kept subdevice record carries the model code of a hub class. *)
Definition subdevices_are_subdevices (hd : Api.hub_data) : Prop :=
  forall d c, In d (default [] (Api.subDevices hd)) -> kept d = true ->
              Api.get_device_class d = Some c -> is_hub_class c = false.

(** Example surroundings and clients. *)
Definition example_env : Api.env :=
  Api.Env 1700000000 0 (fun s => s) "00" (fun _ => Raise HomgarApiException).

Definition subscribed_client : Api.HomgarApi :=
  Api.Client ∅ (Some {[ ("expire" : str) := Api.JNum 1700000300000 ]}) [].

Definition logged_in_client : Api.HomgarApi :=
  Api.Client {[ ("email" : str) := Api.JStr "a@b.c";
                ("token_expires" : str) := Api.JNum 1700007200 ]} None [].

(** A listing whose hub has a subdevice record with the display hub's model
    code 264 and device id 2. *)
Definition listing_with_hub_code : list Api.hub_data :=
  [ Api.HubData example_hub_record
      (Some [ Api.DevData (Some ("Display" : str)) (Some 264) (Some ("Display" : str))
                          (Some 2) (Some 77) (Some 2) (Some 0) (Some []) None None ]) ].

(** A listing with a record of device id 1, a record with an unmapped model
    code, and the irrigation timer. *)
Definition example_listing : list Api.hub_data :=
  [ Api.HubData example_hub_record
      (Some [ Api.DevData (Some ("Display" : str)) (Some 264) (Some ("Display" : str))
                          (Some 1) (Some 77) (Some 1) (Some 0) (Some []) None None;
              Api.DevData (Some ("Mystery" : str)) (Some 999) (Some ("Mystery" : str))
                          (Some 3) (Some 77) (Some 3) (Some 0) (Some []) None None;
              example_timer_record ]) ].

(** The subdevice objects [get_devices_for_hid] builds for a hub record:
    one for each kept record, in order. *)
Definition kept_subdevices (hd : Api.hub_data) : list device :=
  omap (subdevice_object (Api.hub hd))
       (List.filter kept (default [] (Api.subDevices hd))).

(** The class of the object built for a hub record is a hub class. *)
Definition hub_is_hub (hd : Api.hub_data) : Prop :=
  is_hub_class (default HomgarHubDevice (Api.get_device_class (Api.hub hd))) = true.

(** The classes and names of the subdevices of each hub of a result. *)
Definition subdevice_classes (r : result (list device)) : option (list (list variant)) :=
  match r with
  | Ok hubs =>
      Some (map (fun h => map dev_class (default [] (dev_subdevices h))) hubs)
  | Raise _ => None
  end.

(** The status record of the specification's end-to-end scenario. *)
Definition scenario_record : api_obj :=
  ApiObj "D05" (("1,-40,2;11#" : str) ++ example_stream).

(** * Properties *)

(** ** Characters and integer conversion *)

Section IntOfStr.
Import PyStr.

Lemma eqb_of_code (c d : ascii) : code c <> code d -> Ascii.eqb c d = false.
Proof.
  intros H. apply Ascii.eqb_neq. intros ->. now apply H.
Qed.

Lemma digit_code (base : Z) (c : ascii) :
  base <= 16 -> is_digit base c = true ->
  ((48 <= code c <= 57) \/ (97 <= code c <= 102) \/ (65 <= code c <= 70)) /\
  0 <= digit_value c < base.
Proof.
  unfold is_digit, digit_value. intros Hb.
  destruct ((48 <=? code c) && (code c <=? 57)) eqn:E1; [lia|].
  destruct ((97 <=? code c) && (code c <=? 122)) eqn:E2; [lia|].
  destruct ((65 <=? code c) && (code c <=? 90)) eqn:E3; lia.
Qed.

Lemma digit_is_plain (base : Z) (c : ascii) :
  base <= 16 -> is_digit base c = true ->
  is_space c = false /\ Ascii.eqb c "_" = false /\ Ascii.eqb c "+" = false /\
  Ascii.eqb c "-" = false /\ Ascii.eqb c "x" = false /\ Ascii.eqb c "X" = false.
Proof.
  intros Hb Hd. destruct (digit_code base c Hb Hd) as [Hc _].
  repeat split.
  - unfold is_space. lia.
  - apply eqb_of_code; change (code "_") with 95; lia.
  - apply eqb_of_code; change (code "+") with 43; lia.
  - apply eqb_of_code; change (code "-") with 45; lia.
  - apply eqb_of_code; change (code "x") with 120; lia.
  - apply eqb_of_code; change (code "X") with 88; lia.
Qed.

Lemma scan_digits_all (base : Z) (s : str) (acc : Z) (n : nat) :
  base <= 16 -> Forall (fun c => is_digit base c = true) s ->
  scan_digits base s false acc n =
    Some (fold_left (fun a c => a * base + digit_value c) s acc,
          (n + length s)%nat, []).
Proof.
  intros Hb Hs. revert acc n.
  induction Hs as [|c s Hc Hs IH]; intros acc n; cbn [scan_digits fold_left length].
  - now rewrite Nat.add_0_r.
  - destruct (digit_is_plain base c Hb Hc) as (_ & -> & _).
    rewrite Hc, IH. do 3 f_equal. lia.
Qed.

(** A non-empty run of digits of the base converts to its positional
    value. *)
Lemma int_of_str_digits (base : Z) (s : str) :
  base <= 16 -> s <> [] -> Forall (fun c => is_digit base c = true) s ->
  int_of_str base s = Ok (fold_left (fun a c => a * base + digit_value c) s 0).
Proof.
  intros Hb Hne Hs. destruct s as [|c s]; [congruence|].
  pose proof (Forall_inv Hs) as Hc.
  destruct (digit_is_plain base c Hb Hc) as (Hsp & Hus & Hpl & Hmi & _).
  unfold int_of_str. cbn [lstrip]. rewrite Hsp.
  unfold strip_sign. rewrite Hpl, Hmi.
  assert (Hpre : strip_prefix base (c :: s) = c :: s).
  { unfold strip_prefix. destruct s as [|x s']; [reflexivity|].
    pose proof (Forall_inv (Forall_inv_tail Hs)) as Hx.
    destruct (digit_is_plain base x Hb Hx) as (_ & _ & _ & _ & -> & ->).
    now rewrite andb_false_r. }
  rewrite Hpre, Hus, (scan_digits_all base (c :: s) 0 0 Hb Hs).
  reflexivity.
Qed.

Lemma is_decimal_digit (c : ascii) :
  is_decimal c = true -> is_digit 10 c = true /\ digit_value c = code c - 48.
Proof.
  unfold is_decimal, is_digit, digit_value. intros H. rewrite H. lia.
Qed.

Lemma int_of_digit_sequence (s : str) :
  digit_sequence s -> py_int (PStr s) = Ok (decimal_value s).
Proof.
  intros [Hne Hs]. cbn [py_int].
  rewrite int_of_str_digits; [|lia|assumption|].
  - f_equal. unfold decimal_value.
    clear Hne. generalize 0. induction Hs as [|c s Hc Hs IH]; intros acc; [reflexivity|].
    cbn [fold_left]. destruct (is_decimal_digit c Hc) as [_ ->]. apply IH.
  - eapply Forall_impl; [exact Hs|]. intros c Hc. now apply is_decimal_digit.
Qed.

End IntOfStr.

(** ** The stats-value pattern *)

Section StatsValue.

Lemma span_digits_app (ds rest : str) :
  Forall (fun c => is_decimal c = true) ds ->
  match rest with [] => True | c :: _ => is_decimal c = false end ->
  span_digits (ds ++ rest) = (ds, rest).
Proof.
  intros Hds Hrest. induction Hds as [|c ds Hc Hds IH]; cbn [app span_digits].
  - destruct rest as [|c rest]; [reflexivity|].
    cbn [span_digits]. now rewrite Hrest.
  - now rewrite Hc, IH.
Qed.

Lemma span_digits_inv (s ds rest : str) :
  span_digits s = (ds, rest) ->
  s = ds ++ rest /\ Forall (fun c => is_decimal c = true) ds /\
  match rest with [] => True | c :: _ => is_decimal c = false end.
Proof.
  revert ds rest. induction s as [|c s IH]; intros ds rest; cbn [span_digits].
  - intros [= <- <-]. repeat split; constructor.
  - destruct (is_decimal c) eqn:Hc.
    + destruct (span_digits s) as [ds' rest'] eqn:E. intros [= <- <-].
      destruct (IH _ _ eq_refl) as (-> & Hds & Hrest).
      repeat split; [constructor|]; assumption.
    + intros [= <- <-]. repeat split; [constructor|assumption].
Qed.

Lemma group_then_intro (lit : ascii) (ds rest : str) :
  is_decimal lit = false -> digit_sequence ds ->
  group_then lit (ds ++ lit :: rest) = Some (ds, rest).
Proof.
  intros Hlit [Hne Hds]. unfold group_then.
  rewrite span_digits_app by assumption.
  destruct ds; [congruence|]. now rewrite Ascii.eqb_refl.
Qed.

Lemma group_then_inv (lit : ascii) (s ds rest : str) :
  group_then lit s = Some (ds, rest) ->
  s = ds ++ lit :: rest /\ digit_sequence ds.
Proof.
  unfold group_then. destruct (span_digits s) as [ds' rest'] eqn:E.
  destruct (span_digits_inv _ _ _ E) as (-> & Hds & _).
  destruct ds' as [|d ds']; [discriminate|].
  destruct rest' as [|c rest']; [discriminate|].
  destruct (Ascii.eqb c lit) eqn:Hc; [|discriminate].
  apply Ascii.eqb_eq in Hc. subst c. intros [= <- <-].
  split; [reflexivity|]. split; [discriminate|assumption].
Qed.

Lemma fullmatch_intro (a b c d : str) :
  digit_sequence a -> digit_sequence b -> digit_sequence c -> digit_sequence d ->
  STATS_VALUE_REGEX_fullmatch (stats_shape a b c d) = Some (a, b, c, d).
Proof.
  intros Ha Hb Hc Hd. unfold STATS_VALUE_REGEX_fullmatch, stats_shape.
  cbn [list_ascii_of_string app].
  rewrite (group_then_intro "(" a) by (reflexivity || assumption).
  rewrite (group_then_intro "/" b) by (reflexivity || assumption).
  rewrite (group_then_intro "/" c) by (reflexivity || assumption).
  rewrite (group_then_intro ")" d) by (reflexivity || assumption).
  reflexivity.
Qed.

Lemma fullmatch_inv (s a b c d : str) :
  STATS_VALUE_REGEX_fullmatch s = Some (a, b, c, d) ->
  s = stats_shape a b c d /\
  digit_sequence a /\ digit_sequence b /\ digit_sequence c /\ digit_sequence d.
Proof.
  unfold STATS_VALUE_REGEX_fullmatch.
  destruct (group_then "(" s) as [[g1 r1]|] eqn:E1; [|discriminate].
  destruct (group_then "/" r1) as [[g2 r2]|] eqn:E2; [|discriminate].
  destruct (group_then "/" r2) as [[g3 r3]|] eqn:E3; [|discriminate].
  destruct (group_then ")" r3) as [[g4 r4]|] eqn:E4; [|discriminate].
  destruct r4; [|discriminate]. intros [= <- <- <- <-].
  apply group_then_inv in E1 as [-> H1], E2 as [-> H2], E3 as [-> H3], E4 as [-> H4].
  repeat split; try tauto; apply H1 || apply H2 || apply H3 || apply H4.
Qed.

(** [_parse_stats_value] never raises. *)
Lemma parse_stats_value_total (s : str) :
  exists t, _parse_stats_value s = Ok t /\
    (STATS_VALUE_REGEX_fullmatch s = None -> t = (PNone, PNone, PNone, PNone)) /\
    (forall a b c d, STATS_VALUE_REGEX_fullmatch s = Some (a, b, c, d) ->
       t = (PInt (decimal_value a), PInt (decimal_value b),
            PInt (decimal_value c), PInt (decimal_value d))).
Proof.
  unfold _parse_stats_value.
  destruct (STATS_VALUE_REGEX_fullmatch s) as [[[[a b] c] d]|] eqn:E.
  - apply fullmatch_inv in E as (_ & Ha & Hb & Hc & Hd).
    rewrite !int_of_digit_sequence by assumption. cbn [bind].
    eexists; split; [reflexivity|]. split; [discriminate|].
    now intros ? ? ? ? [= <- <- <- <-].
  - eexists; split; [reflexivity|]. split; [reflexivity|discriminate].
Qed.

End StatsValue.

(** ** Printing integers in decimal *)

Section Decimal.
Import PyStr.

Lemma uint_chars_decimal (d : Decimal.uint) :
  Forall (fun c => is_decimal c = true) (uint_chars d).
Proof.
  unfold uint_chars.
  induction d; cbn [NilEmpty.string_of_uint list_ascii_of_string];
    constructor; (reflexivity || assumption).
Qed.

Lemma uint_chars_acc (d : Decimal.uint) (acc : positive) :
  fold_left (fun a c => a * 10 + (code c - 48)) (uint_chars d) (Z.pos acc)
  = Z.pos (Pos.of_uint_acc d acc).
Proof.
  unfold uint_chars. revert acc.
  induction d; intros acc;
    cbn [NilEmpty.string_of_uint list_ascii_of_string fold_left Pos.of_uint_acc];
    [reflexivity|..];
    match goal with
    | |- fold_left _ _ ?z = _ =>
        match goal with
        | |- _ = Z.pos (Pos.of_uint_acc _ ?p) =>
            replace z with (Z.pos p) by (vm_compute (code _); lia)
        end
    end; apply IHd.
Qed.

Lemma uint_chars_value (d : Decimal.uint) :
  decimal_value (uint_chars d) = Z.of_N (Pos.of_uint d).
Proof.
  unfold decimal_value, uint_chars.
  induction d;
    cbn [NilEmpty.string_of_uint list_ascii_of_string fold_left Pos.of_uint];
    [reflexivity| exact IHd |..];
    match goal with
    | |- fold_left _ _ ?z = Z.of_N (N.pos (Pos.of_uint_acc _ ?p)) =>
        replace z with (Z.pos p) by (vm_compute (code _); lia)
    end; apply uint_chars_acc.
Qed.

(** A natural number prints as a digit sequence that denotes it. *)
Lemma str_of_int_digits (a : Z) :
  0 <= a -> digit_sequence (str_of_int a) /\ decimal_value (str_of_int a) = a.
Proof.
  intros Ha. destruct a as [|p|p]; [| |lia].
  - split; [split; [discriminate|repeat constructor]|reflexivity].
  - unfold str_of_int. cbn [Z.to_int NilZero.string_of_int].
    unfold NilZero.string_of_uint.
    pose proof (DecimalPos.Unsigned.to_uint_nonnil p) as Hnil.
    destruct (Pos.to_uint p) as [|u|u|u|u|u|u|u|u|u|u] eqn:E; [congruence|..];
      rewrite <- E;
      (split; [split; [rewrite E; discriminate | apply uint_chars_decimal] |
               fold (uint_chars (Pos.to_uint p));
               rewrite uint_chars_value, DecimalPos.Unsigned.of_to; reflexivity]).
Qed.

End Decimal.


(** ** Temperature conversion *)

Lemma check_range_sound (f : Z -> bool) (n : nat) :
  forall lo, check_range f lo n = true ->
  forall z, lo <= z < lo + Z.of_nat n -> f z = true.
Proof.
  induction n as [|n IH]; intros lo H z Hz; [lia|].
  cbn [check_range] in H. apply andb_prop in H as [H0 H1].
  destruct (Z.eq_dec z lo) as [->|Hne]; [exact H0|].
  apply (IH (lo + 1) H1). lia.
Qed.

(** C9. [_temp_to_mk] computes, for every integer reading [raw] in tenths
    of a degree Fahrenheit, round(1000 * ((raw*0.1 - 32) * 5/9 + 273.15))
    in binary64 arithmetic; at 750 this is
    round(1000*((75.0-32)*5/9+273.15)), which is 297039; and from absolute
    zero (-459.7 F) to 1000 F the binary64 result is the formula's exact
    value rounded to the nearest integer. *)
Theorem temp_to_mk_formula :
  (forall raw, _temp_to_mk (PInt raw) = mK_formula raw) /\
  (_temp_to_mk (PInt 750)
   = PyFloat.round (1000 * ((75.0 - 32) * 5 / 9 + 273.15))%float /\
   _temp_to_mk (PInt 750) = Ok 297039) /\
  (forall raw, -4597 <= raw <= 10000 -> _temp_to_mk (PInt raw) = Ok (mK_exact raw)).
Proof.
  split; [reflexivity|]. split; [split; vm_compute; reflexivity|].
  intros raw Hraw.
  assert (H : agrees_with_exact raw = true).
  { apply (check_range_sound agrees_with_exact (Z.to_nat 14598) (-4597));
      [|rewrite Z2Nat.id; lia].
    vm_compute. reflexivity. }
  unfold agrees_with_exact in H.
  destruct (_temp_to_mk (PInt raw)) as [v|]; [|discriminate].
  apply Z.eqb_eq in H. now subst.
Qed.

(** ** Searching and slicing *)

Section Strings.
Import PyStr.

Lemma slice_take_drop (s : str) (i k : Z) :
  0 <= i -> 0 <= k ->
  slice s i (i + k) = take (Z.to_nat k) (drop (Z.to_nat i) s).
Proof.
  intros Hi Hk. unfold slice, clamp, len.
  replace (i <? 0) with false by lia. replace (i + k <? 0) with false by lia.
  destruct (Z_le_gt_dec i (Z.of_nat (length s))) as [Hle|Hgt].
  - rewrite (Z.min_l i) by lia.
    destruct (Z_le_gt_dec (i + k) (Z.of_nat (length s))) as [Hle'|Hgt'].
    + rewrite Z.min_l by lia. f_equal. lia.
    + rewrite Z.min_r by lia.
      rewrite (take_ge (drop (Z.to_nat i) s) (Z.to_nat k))
        by (rewrite length_drop; lia).
      apply take_ge. rewrite length_drop. lia.
  - rewrite !Z.min_r by lia.
    rewrite (drop_ge s (Z.to_nat i)) by lia.
    rewrite drop_ge by lia. now rewrite !take_nil.
Qed.

Lemma slice_from_drop (s : str) (i : Z) :
  0 <= i -> slice_from s i = drop (Z.to_nat i) s.
Proof.
  intros Hi. unfold slice_from, clamp, len.
  replace (i <? 0) with false by lia.
  destruct (Z_le_gt_dec i (Z.of_nat (length s))).
  - now rewrite Z.min_l by lia.
  - rewrite Z.min_r by lia. rewrite !drop_ge by lia. reflexivity.
Qed.

Lemma startswith_take (p s : str) :
  startswith p s = true <-> take (length p) s = p.
Proof.
  revert s. induction p as [|a p IH]; intros s; cbn [startswith length take].
  - now rewrite take_0.
  - destruct s as [|b s]; [split; discriminate|]. cbn [take].
    rewrite andb_true_iff, Ascii.eqb_eq, IH. split.
    + now intros [-> ->].
    + now intros [= -> ->].
Qed.

Lemma occurs_at_startswith (s p : str) (j : Z) :
  occurs_at s p j <-> 0 <= j /\ startswith p (drop (Z.to_nat j) s) = true.
Proof.
  unfold occurs_at. split; intros [Hj H]; (split; [exact Hj|]).
  - apply startswith_take. rewrite <- H at 2.
    unfold len. rewrite slice_take_drop by lia. now rewrite Nat2Z.id.
  - apply startswith_take in H. unfold len.
    rewrite slice_take_drop by lia. now rewrite Nat2Z.id.
Qed.

Lemma find_from_spec (p s : str) (i : Z) :
  (find_from p s i = -1 /\ forall k : nat, startswith p (drop k s) = false) \/
  (exists k : nat,
      find_from p s i = i + Z.of_nat k /\ startswith p (drop k s) = true /\
      forall j : nat, (j < k)%nat -> startswith p (drop j s) = false).
Proof.
  revert i. induction s as [|c s IH]; intros i; cbn [find_from].
  - destruct (startswith p []) eqn:E.
    + right. exists 0%nat. rewrite Z.add_0_r. repeat split; [exact E|lia].
    + left. split; [reflexivity|]. intros k. now rewrite drop_nil.
  - destruct (startswith p (c :: s)) eqn:E.
    + right. exists 0%nat. rewrite Z.add_0_r. repeat split; [exact E|lia].
    + destruct (IH (i + 1)) as [[Hr Hall]|(k & Hr & Hk & Hmin)].
      * left. split; [exact Hr|]. intros [|k]; [exact E|apply Hall].
      * right. exists (S k). split; [rewrite Hr; lia|]. split; [exact Hk|].
        intros [|j] Hj; [exact E|]. apply Hmin. lia.
Qed.

(** [find] gives the first occurrence, or [-1] when there is none. *)
Lemma find_spec (s p : str) :
  (find s p = -1 /\ absent s p) \/ first_occurrence s p (find s p).
Proof.
  unfold find. destruct (find_from_spec p s 0) as [[Hr Hall]|(k & Hr & Hk & Hmin)].
  - left. split; [exact Hr|]. intros j Hj.
    apply occurs_at_startswith in Hj as [_ Hj]. now rewrite Hall in Hj.
  - right. rewrite Hr, Z.add_0_l. split.
    + apply occurs_at_startswith. split; [lia|]. now rewrite Nat2Z.id.
    + intros j Hlt Hj. apply occurs_at_startswith in Hj as [Hj0 Hj].
      rewrite Hmin in Hj by lia. discriminate.
Qed.

Lemma find_first_occurrence (s p : str) (i : Z) :
  first_occurrence s p i -> find s p = i.
Proof.
  intros [Hi Hmin]. destruct (find_spec s p) as [[_ Habs]|[Hr Hrmin]].
  - now destruct (Habs i).
  - destruct (Z.lt_trichotomy (find s p) i) as [Hlt|[Heq|Hgt]]; [|exact Heq|].
    + now destruct (Hmin _ Hlt).
    + now destruct (Hrmin _ Hgt).
Qed.

Lemma find_absent (s p : str) : absent s p -> find s p = -1.
Proof.
  intros Habs. destruct (find_spec s p) as [[Hr _]|[Hr _]]; [exact Hr|].
  now destruct (Habs _ Hr).
Qed.

Lemma first_occurrence_nonneg (s p : str) (i : Z) :
  first_occurrence s p i -> 0 <= i.
Proof. now intros [[Hi _] _]. Qed.

End Strings.

(** ** The zone table under the three decoding loops *)

Section ZoneTable.
Import PyStr Diivoo.

Lemma with_zones_lookup (zs : gmap nat zone) (self : attrs) :
  with_zones zs self !! ("zones" : str) = Some (PZones zs).
Proof. apply lookup_insert_eq. Qed.

Lemma with_zones_twice (a b : gmap nat zone) (self : attrs) :
  with_zones a (with_zones b self) = with_zones a self.
Proof. apply insert_insert_eq. Qed.

Lemma with_zones_same (zs : gmap nat zone) (self : attrs) :
  self !! ("zones" : str) = Some (PZones zs) -> with_zones zs self = self.
Proof. apply insert_id. Qed.

Lemma zone_of_with_zones (zs : gmap nat zone) (self : attrs) (n : nat) :
  zone_of (with_zones zs self) n = zs !! n.
Proof. unfold zone_of. now rewrite with_zones_lookup. Qed.

Lemma get_zone_ok (self : attrs) (zs : gmap nat zone) (n : nat) (z : zone) :
  self !! ("zones" : str) = Some (PZones zs) -> zs !! n = Some z ->
  get_zone n self = (Ok z, self).
Proof.
  intros Hz Hn. unfold get_zone, mbind, getattr, ret. now rewrite Hz, Hn.
Qed.

Lemma update_zone_alter (self : attrs) (zs : gmap nat zone) (n : nat)
  (f : zone -> zone) :
  self !! ("zones" : str) = Some (PZones zs) -> is_Some (zs !! n) ->
  update_zone n f self = (Ok tt, with_zones (alter f n zs) self).
Proof.
  intros Hz [z Hn]. unfold update_zone, mbind, getattr, setattr.
  rewrite Hz, Hn. now rewrite (alter_alt_Some f zs n z Hn).
Qed.

Lemma alter_same (f : zone -> zone) (zs : gmap nat zone) (n : nat) (self : attrs) :
  self !! ("zones" : str) = Some (PZones zs) ->
  (forall z, f z = z) ->
  with_zones (alter f n zs) self = self.
Proof.
  intros Hz Hf. rewrite alter_id by (intros; apply Hf). now apply with_zones_same.
Qed.

(** [int(s, base)] raises nothing but [ValueError]. *)
Lemma int_of_str_raises (base : Z) (s : str) (e : exn) :
  int_of_str base s = Raise e -> e = ValueError.
Proof.
  unfold int_of_str. repeat case_match; congruence.
Qed.

Lemma parse_port_status_alter (hex_data : str) (self : attrs)
  (zs : gmap nat zone) (n : nat) (pattern : str) :
  self !! ("zones" : str) = Some (PZones zs) -> is_Some (zs !! n) ->
  parse_port_status hex_data (n, pattern) self
  = (Ok tt, with_zones (alter (status_update hex_data pattern) n zs) self).
Proof.
  intros Hz Hn. unfold parse_port_status, status_update.
  destruct ((0 <=? find hex_data pattern)
            && (find hex_data pattern + 6 <=? len hex_data));
    [|unfold ret; now rewrite alter_same].
  destruct (status_map _) as [st|]; [|unfold ret; now rewrite alter_same].
  destruct Hn as [z Hn]. unfold mbind at 1.
  rewrite (get_zone_ok self zs n z Hz Hn). unfold mbind.
  rewrite (update_zone_alter self zs n _ Hz) by eauto.
  rewrite (update_zone_alter _ _ n _ (with_zones_lookup _ _))
    by (rewrite lookup_alter_eq, Hn; eauto).
  now rewrite with_zones_twice, alter_alter_eq.
Qed.

Lemma parse_countdown_timer_alter (hex_data : str) (self : attrs)
  (zs : gmap nat zone) (n : nat) (pattern : str) :
  self !! ("zones" : str) = Some (PZones zs) -> is_Some (zs !! n) ->
  parse_countdown_timer hex_data (n, pattern) self
  = (Ok tt, with_zones (alter (timer_update hex_data pattern) n zs) self).
Proof.
  intros Hz Hn. unfold parse_countdown_timer, timer_update.
  destruct ((0 <=? find hex_data pattern)
            && (find hex_data pattern + 12 <=? len hex_data));
    [|unfold ret; now rewrite alter_same].
  destruct (startswith pattern _); [|unfold ret; now rewrite alter_same].
  destruct (int_of_str 16 _) as [v|e] eqn:E.
  - destruct Hn as [z Hn]. unfold mbind.
    rewrite (get_zone_ok self zs n z Hz Hn).
    now rewrite (update_zone_alter self zs n _ Hz) by eauto.
  - rewrite (int_of_str_raises _ _ _ E).
    now rewrite (update_zone_alter self zs n _ Hz).
Qed.

Lemma parse_duration_setting_alter (hex_data : str) (self : attrs)
  (zs : gmap nat zone) (n : nat) (pattern : str) :
  self !! ("zones" : str) = Some (PZones zs) -> is_Some (zs !! n) ->
  parse_duration_setting hex_data (n, pattern) self
  = (Ok tt, with_zones (alter (duration_update hex_data pattern) n zs) self).
Proof.
  intros Hz Hn. unfold parse_duration_setting, duration_update.
  destruct ((0 <=? find hex_data pattern)
            && (find hex_data pattern + 8 <=? len hex_data));
    [|unfold ret; now rewrite alter_same].
  destruct (startswith pattern _); [|unfold ret; now rewrite alter_same].
  destruct (int_of_str 16 _) as [v|e] eqn:E.
  - destruct Hn as [z Hn]. unfold mbind.
    rewrite (get_zone_ok self zs n z Hz Hn).
    now rewrite (update_zone_alter self zs n _ Hz) by eauto.
  - rewrite (int_of_str_raises _ _ _ E).
    now rewrite (update_zone_alter self zs n _ Hz).
Qed.

(** A loop over the three zones whose body updates the zone it addresses
    updates the three zones in turn. *)
Lemma zone_loop (body : nat * str -> method unit) (upd : str -> zone -> zone) :
  (forall self zs n pattern,
      self !! ("zones" : str) = Some (PZones zs) -> is_Some (zs !! n) ->
      body (n, pattern) self = (Ok tt, with_zones (alter (upd pattern) n zs) self)) ->
  forall self zs p1 p2 p3,
    self !! ("zones" : str) = Some (PZones zs) ->
    is_Some (zs !! 1%nat) -> is_Some (zs !! 2%nat) -> is_Some (zs !! 3%nat) ->
    for_each (enumerate 1 [p1; p2; p3]) body self
    = (Ok tt, with_zones (zones_updated upd [p1; p2; p3] zs) self).
Proof.
  intros Hbody self zs p1 p2 p3 Hz H1 H2 H3.
  cbn [enumerate for_each]. unfold mbind, ret, zones_updated. cbn [nth].
  rewrite (Hbody self zs 1%nat p1 Hz H1).
  rewrite (Hbody _ _ 2%nat p2 (with_zones_lookup _ _))
    by (now rewrite lookup_alter_ne).
  rewrite (Hbody _ _ 3%nat p3 (with_zones_lookup _ _))
    by (now rewrite !lookup_alter_ne).
  now rewrite !with_zones_twice.
Qed.

Lemma zones_updated_lookup (upd : str -> zone -> zone) (p1 p2 p3 : str)
  (zs : gmap nat zone) :
  zones_updated upd [p1; p2; p3] zs !! 1%nat = upd p1 <$> zs !! 1%nat /\
  zones_updated upd [p1; p2; p3] zs !! 2%nat = upd p2 <$> zs !! 2%nat /\
  zones_updated upd [p1; p2; p3] zs !! 3%nat = upd p3 <$> zs !! 3%nat.
Proof.
  unfold zones_updated. cbn [nth]. repeat split.
  - now rewrite !lookup_alter_ne, lookup_alter_eq by done.
  - now rewrite lookup_alter_ne, lookup_alter_eq, lookup_alter_ne by done.
  - now rewrite lookup_alter_eq, !lookup_alter_ne by done.
Qed.

Lemma zones_updated_is_Some (upd : str -> zone -> zone) (p1 p2 p3 : str)
  (zs : gmap nat zone) (n : nat) :
  (n = 1 \/ n = 2 \/ n = 3)%nat -> is_Some (zs !! n) ->
  is_Some (zones_updated upd [p1; p2; p3] zs !! n).
Proof.
  destruct (zones_updated_lookup upd p1 p2 p3 zs) as (E1 & E2 & E3).
  intros [-> | [-> | ->]] [z Hz]; rewrite ?E1, ?E2, ?E3, Hz; eauto.
Qed.

Lemma port_statuses_eq (hex_data : str) (self : attrs) (zs : gmap nat zone) :
  self !! ("zones" : str) = Some (PZones zs) ->
  is_Some (zs !! 1%nat) -> is_Some (zs !! 2%nat) -> is_Some (zs !! 3%nat) ->
  _parse_port_statuses_precise hex_data self
  = (Ok tt, with_zones (zones_updated (status_update hex_data) port_patterns zs) self).
Proof.
  intros. unfold _parse_port_statuses_precise, port_patterns.
  apply (zone_loop _ (status_update hex_data)); try assumption.
  intros. now apply parse_port_status_alter.
Qed.

Lemma countdown_timers_eq (hex_data : str) (self : attrs) (zs : gmap nat zone) :
  self !! ("zones" : str) = Some (PZones zs) ->
  is_Some (zs !! 1%nat) -> is_Some (zs !! 2%nat) -> is_Some (zs !! 3%nat) ->
  _parse_countdown_timers_precise hex_data self
  = (Ok tt, with_zones (zones_updated (timer_update hex_data) timer_patterns zs) self).
Proof.
  intros. unfold _parse_countdown_timers_precise, timer_patterns.
  apply (zone_loop _ (timer_update hex_data)); try assumption.
  intros. now apply parse_countdown_timer_alter.
Qed.

Lemma duration_settings_eq (hex_data : str) (self : attrs) (zs : gmap nat zone) :
  self !! ("zones" : str) = Some (PZones zs) ->
  is_Some (zs !! 1%nat) -> is_Some (zs !! 2%nat) -> is_Some (zs !! 3%nat) ->
  _parse_duration_settings_precise hex_data self
  = (Ok tt, with_zones (zones_updated (duration_update hex_data) duration_patterns zs) self).
Proof.
  intros. unfold _parse_duration_settings_precise, duration_patterns.
  apply (zone_loop _ (duration_update hex_data)); try assumption.
  intros. now apply parse_duration_setting_alter.
Qed.

Lemma has_zones_table (self : attrs) :
  has_zones self ->
  exists zs, self !! ("zones" : str) = Some (PZones zs) /\
    is_Some (zs !! 1%nat) /\ is_Some (zs !! 2%nat) /\ is_Some (zs !! 3%nat).
Proof.
  unfold has_zones, zone_of. intros (H1 & H2 & H3).
  destruct (self !! ("zones" : str)) as [[| | | | | |zs]|];
    try (destruct H1 as [? H1]; discriminate).
  now exists zs.
Qed.

(** The whole pass over a stream of at least 50 characters. *)
Lemma hex_status_data_eq (hex_data : str) (self : attrs) (zs : gmap nat zone) :
  self !! ("zones" : str) = Some (PZones zs) ->
  is_Some (zs !! 1%nat) -> is_Some (zs !! 2%nat) -> is_Some (zs !! 3%nat) ->
  50 <= len hex_data ->
  _parse_hex_status_data hex_data self
  = (Ok tt,
     with_zones
       (zones_updated (duration_update hex_data) duration_patterns
          (zones_updated (timer_update hex_data) timer_patterns
             (zones_updated (status_update hex_data) port_patterns zs)))
       (<[("sequence" : str) := PStr (slice hex_data 2 8)]> self)).
Proof.
  intros Hz H1 H2 H3 Hlen. unfold _parse_hex_status_data.
  replace (len hex_data <? 50) with false by lia.
  replace (8 <=? len hex_data) with true by lia.
  unfold mbind, setattr.
  assert (Hz' : <[("sequence" : str) := PStr (slice hex_data 2 8)]> self
                !! ("zones" : str) = Some (PZones zs)).
  { rewrite lookup_insert_ne by discriminate. exact Hz. }
  rewrite (port_statuses_eq _ _ zs Hz' H1 H2 H3).
  rewrite (countdown_timers_eq _ _ _ (with_zones_lookup _ _))
    by (apply zones_updated_is_Some; auto).
  rewrite (duration_settings_eq _ _ _ (with_zones_lookup _ _))
    by (apply zones_updated_is_Some; [|apply zones_updated_is_Some]; auto).
  now rewrite !with_zones_twice.
Qed.

End ZoneTable.

(** ** Zone status tags *)

Section StatusTags.
Import PyStr Diivoo.

Lemma occurs_at_take (s p : str) (i : Z) :
  occurs_at s p i -> take (length p) (drop (Z.to_nat i) s) = p.
Proof.
  intros H. apply occurs_at_startswith in H as [_ H]. now apply startswith_take.
Qed.

(** The [k] characters at an occurrence of a tag, for [k] at least the
    tag's length: the tag, then what follows it. *)
Lemma slice_at_occurrence (s p : str) (i : Z) (k : nat) :
  occurs_at s p i ->
  slice s i (i + Z.of_nat (length p + k))
  = p ++ take k (drop (Z.to_nat i + length p) s).
Proof.
  intros H. pose proof (occurs_at_take s p i H) as Hp. destruct H as [Hi _].
  rewrite slice_take_drop by lia. rewrite Nat2Z.id.
  rewrite <- take_take_drop, Hp. now rewrite drop_drop.
Qed.

Lemma slice_full_length (s : str) (i k : Z) :
  0 <= i -> 0 < k -> length (slice s i (i + k)) = Z.to_nat k -> i + k <= len s.
Proof.
  intros Hi Hk. rewrite slice_take_drop by lia.
  rewrite length_take, length_drop. unfold len. lia.
Qed.

Lemma status_map_inv (x st : str) :
  status_map x = Some st ->
  (x = "D821" /\ st = "on") \/ (x = "D820" /\ st = "off_recent") \/
  (x = "D800" /\ st = "off_idle").
Proof.
  unfold status_map, str_eqb. repeat case_bool_decide; intros [= <-]; auto.
Qed.

Lemma status_update_absent (hex_data p : str) (z : zone) :
  absent hex_data p -> status_update hex_data p z = z.
Proof.
  intros H. unfold status_update. now rewrite (find_absent _ _ H).
Qed.

Lemma status_update_found (hex_data p : str) (z : zone) (pos : Z) :
  In p port_patterns -> first_occurrence hex_data p pos ->
  let tagged := slice hex_data pos (pos + 6) in
  (tagged = p ++ "21" ->
   status_update hex_data p z = Zone true "on" (countdown_timer z) (duration_setting z)) /\
  (tagged = p ++ "20" ->
   status_update hex_data p z
   = Zone false "off_recent" (countdown_timer z) (duration_setting z)) /\
  (tagged = p ++ "00" ->
   status_update hex_data p z
   = Zone false "off_idle" (countdown_timer z) (duration_setting z)) /\
  (tagged <> p ++ "21" -> tagged <> p ++ "20" -> tagged <> p ++ "00" ->
   status_update hex_data p z = z).
Proof.
  intros Hp Hfirst tagged.
  pose proof (first_occurrence_nonneg _ _ _ Hfirst) as Hpos.
  assert (Hfull : length tagged = 6%nat -> pos + 6 <= len hex_data).
  { intros H. apply slice_full_length; [lia..|exact H]. }
  assert (Hsplit : tagged = p ++ take 2 (drop (Z.to_nat pos + 4) hex_data)).
  { destruct Hfirst as [Hocc _].
    pose proof (slice_at_occurrence hex_data p pos 2 Hocc) as H.
    unfold tagged. destruct Hp as [<-|[<-|[<-|[]]]]; exact H. }
  unfold status_update. rewrite (find_first_occurrence _ _ _ Hfirst).
  fold tagged. repeat split.
  - intros E. rewrite E in *.
    replace (pos + 6 <=? len hex_data) with true
      by (symmetry; apply Z.leb_le, Hfull; destruct Hp as [<-|[<-|[<-|[]]]]; reflexivity).
    replace (0 <=? pos) with true by lia.
    destruct Hp as [<-|[<-|[<-|[]]]]; reflexivity.
  - intros E. rewrite E in *.
    replace (pos + 6 <=? len hex_data) with true
      by (symmetry; apply Z.leb_le, Hfull; destruct Hp as [<-|[<-|[<-|[]]]]; reflexivity).
    replace (0 <=? pos) with true by lia.
    destruct Hp as [<-|[<-|[<-|[]]]]; reflexivity.
  - intros E. rewrite E in *.
    replace (pos + 6 <=? len hex_data) with true
      by (symmetry; apply Z.leb_le, Hfull; destruct Hp as [<-|[<-|[<-|[]]]]; reflexivity).
    replace (0 <=? pos) with true by lia.
    destruct Hp as [<-|[<-|[<-|[]]]]; reflexivity.
  - intros N1 N2 N3.
    destruct ((0 <=? pos) && (pos + 6 <=? len hex_data)); [|reflexivity].
    destruct (status_map (slice_from tagged 2)) as [st|] eqn:E; [|reflexivity].
    exfalso. apply status_map_inv in E.
    rewrite Hsplit in E, N1, N2, N3.
    set (rest := take 2 (drop (Z.to_nat pos + 4) hex_data)) in *.
    assert (Hd : forall q, In q port_patterns ->
                 slice_from (q ++ rest) 2 = ("D8" : str) ++ rest).
    { intros q Hq. rewrite slice_from_drop by lia.
      destruct Hq as [<-|[<-|[<-|[]]]]; reflexivity. }
    rewrite (Hd p Hp) in E.
    destruct E as [[E _]|[[E _]|[E _]]]; injection E as E;
      [apply N1|apply N2|apply N3]; now rewrite E.
Qed.

Lemma timer_update_status (hex_data p : str) (z : zone) :
  status (timer_update hex_data p z) = status z /\
  active (timer_update hex_data p z) = active z /\
  duration_setting (timer_update hex_data p z) = duration_setting z.
Proof.
  unfold timer_update. repeat case_match; auto.
Qed.

Lemma duration_update_status (hex_data p : str) (z : zone) :
  status (duration_update hex_data p z) = status z /\
  active (duration_update hex_data p z) = active z /\
  countdown_timer (duration_update hex_data p z) = countdown_timer z.
Proof.
  unfold duration_update. repeat case_match; auto.
Qed.

Lemma status_update_timers (hex_data p : str) (z : zone) :
  countdown_timer (status_update hex_data p z) = countdown_timer z /\
  duration_setting (status_update hex_data p z) = duration_setting z.
Proof.
  unfold status_update. repeat case_match; auto.
Qed.

(** Zone [n] after the whole pass, when [p] is the status tag of zone
    [n]. *)
Lemma zone_after_pass (self : attrs) (hex_data : str) (n : nat) (p : str) (z : zone) :
  has_zones self -> 50 <= len hex_data ->
  In (n, p) (enumerate 1 port_patterns) -> zone_of self n = Some z ->
  exists tp dp,
    zone_of (after (_parse_hex_status_data hex_data) self) n
    = Some (duration_update hex_data dp
              (timer_update hex_data tp (status_update hex_data p z))).
Proof.
  intros Hself Hlen Hin Hz.
  destruct (has_zones_table self Hself) as (zs & Hzs & H1 & H2 & H3).
  unfold after. rewrite (hex_status_data_eq hex_data self zs Hzs H1 H2 H3 Hlen).
  cbn [snd]. rewrite zone_of_with_zones.
  unfold zone_of in Hz. rewrite Hzs in Hz.
  unfold duration_patterns, timer_patterns, port_patterns in *.
  destruct (zones_updated_lookup (duration_update hex_data) "25AD" "26AD" "27AD"
              (zones_updated (timer_update hex_data) ["21B7" : str; "22B7" : str; "23B7" : str]
                 (zones_updated (status_update hex_data) ["19D8" : str; "1AD8" : str; "1BD8" : str] zs)))
    as (D1 & D2 & D3).
  destruct (zones_updated_lookup (timer_update hex_data) "21B7" "22B7" "23B7"
              (zones_updated (status_update hex_data) ["19D8" : str; "1AD8" : str; "1BD8" : str] zs))
    as (T1 & T2 & T3).
  destruct (zones_updated_lookup (status_update hex_data) "19D8" "1AD8" "1BD8" zs)
    as (S1 & S2 & S3).
  cbn [enumerate In] in Hin.
  destruct Hin as [[= <- <-]|[[= <- <-]|[[= <- <-]|[]]]].
  - exists ("21B7" : str), ("25AD" : str). rewrite D1, T1, S1, Hz. reflexivity.
  - exists ("22B7" : str), ("26AD" : str). rewrite D2, T2, S2, Hz. reflexivity.
  - exists ("23B7" : str), ("27AD" : str). rewrite D3, T3, S3, Hz. reflexivity.
Qed.

End StatusTags.

(** C1 (as amended). For every hex stream of at least 50 characters decoded
    by [_parse_hex_status_data] on an object with its three zones, and for
    each zone with its tag (19D8, 1AD8, 1BD8): the FIRST occurrence of the
    tag decides.  When the six characters at it are the tag followed by 21
    the zone becomes on/active, followed by 20 off_recent, followed by 00
    off_idle (both inactive); when they are anything else (an unknown code,
    or a stream that ends before the code is complete), or when the tag
    does not occur, the zone's status and active keep their values. *)
Theorem status_tags_first_occurrence (self : attrs) (hex_data : str) :
  has_zones self -> 50 <= PyStr.len hex_data ->
  outcome (Diivoo._parse_hex_status_data hex_data) self = Ok tt /\
  forall n pattern z,
    In (n, pattern) (enumerate 1 Diivoo.port_patterns) ->
    zone_of self n = Some z ->
    exists z',
      zone_of (after (Diivoo._parse_hex_status_data hex_data) self) n = Some z' /\
      (forall pos, first_occurrence hex_data pattern pos ->
         let tagged := PyStr.slice hex_data pos (pos + 6) in
         (tagged = pattern ++ "21" -> status z' = "on" /\ active z' = true) /\
         (tagged = pattern ++ "20" -> status z' = "off_recent" /\ active z' = false) /\
         (tagged = pattern ++ "00" -> status z' = "off_idle" /\ active z' = false) /\
         (tagged <> pattern ++ "21" -> tagged <> pattern ++ "20" ->
          tagged <> pattern ++ "00" ->
          status z' = status z /\ active z' = active z)) /\
      (absent hex_data pattern -> status z' = status z /\ active z' = active z).
Proof.
  intros Hself Hlen. split.
  - destruct (has_zones_table self Hself) as (zs & Hzs & H1 & H2 & H3).
    unfold outcome. now rewrite (hex_status_data_eq hex_data self zs Hzs H1 H2 H3 Hlen).
  - intros n p z Hin Hz.
    destruct (zone_after_pass self hex_data n p z Hself Hlen Hin Hz) as (tp & dp & ->).
    eexists; split; [reflexivity|].
    destruct (duration_update_status hex_data dp
                (timer_update hex_data tp (status_update hex_data p z))) as (-> & -> & _).
    destruct (timer_update_status hex_data tp (status_update hex_data p z))
      as (-> & -> & _).
    assert (Hp : In p Diivoo.port_patterns).
    { cbn [enumerate In Diivoo.port_patterns] in *.
      destruct Hin as [[= <- <-]|[[= <- <-]|[[= <- <-]|[]]]]; auto. }
    split.
    + intros pos Hfirst tagged.
      destruct (status_update_found hex_data p z pos Hp Hfirst) as (F1 & F2 & F3 & F4).
      fold tagged in F1, F2, F3, F4.
      repeat split; intros; rewrite ?F1, ?F2, ?F3, ?F4 by assumption; reflexivity.
    + intros Habs. now rewrite status_update_absent.
Qed.

Lemma example_timer_has_zones : has_zones example_timer.
Proof.
  repeat split; exists (Zone false "off_idle" 0 0); vm_compute; reflexivity.
Qed.

(** On the example stream the three zones read on, off_idle, off_idle. *)
Lemma status_tags_example :
  has_zones example_timer /\ 50 <= PyStr.len example_stream /\
  status <$> zone_of (after (Diivoo._parse_hex_status_data example_stream) example_timer) 1
  = Some ("on" : str) /\
  status <$> zone_of (after (Diivoo._parse_hex_status_data example_stream) example_timer) 2
  = Some ("off_idle" : str) /\
  status <$> zone_of (after (Diivoo._parse_hex_status_data example_stream) example_timer) 3
  = Some ("off_idle" : str).
Proof.
  assert (Hz : has_zones example_timer) by exact example_timer_has_zones.
  assert (Hl : 50 <= PyStr.len example_stream) by (vm_compute; discriminate).
  split; [exact Hz|]. split; [exact Hl|].
  destruct (status_tags_first_occurrence example_timer example_stream Hz Hl) as [_ H].
  assert (Hfirst : forall p i, PyStr.find example_stream p = i -> 0 <= i ->
                   first_occurrence example_stream p i).
  { intros p i Hi Hpos. destruct (find_spec example_stream p) as [[E _]|E]; [lia|].
    now rewrite Hi in E. }
  split; [|split].
  - destruct (H 1%nat ("19D8" : str) (Zone false "off_idle" 0 0)) as (z' & -> & Hf & _);
      [cbn; auto | vm_compute; reflexivity |].
    destruct (Hf 8 (Hfirst ("19D8" : str) 8 ltac:(vm_compute; reflexivity) ltac:(lia))) as (F & _).
    destruct (F ltac:(vm_compute; reflexivity)) as [E _].
    cbn [fmap option_fmap option_map]. now rewrite E.
  - destruct (H 2%nat ("1AD8" : str) (Zone false "off_idle" 0 0)) as (z' & -> & Hf & _);
      [cbn; auto | vm_compute; reflexivity |].
    destruct (Hf 14 (Hfirst ("1AD8" : str) 14 ltac:(vm_compute; reflexivity) ltac:(lia)))
      as (_ & _ & F & _).
    destruct (F ltac:(vm_compute; reflexivity)) as [E _].
    cbn [fmap option_fmap option_map]. now rewrite E.
  - destruct (H 3%nat ("1BD8" : str) (Zone false "off_idle" 0 0)) as (z' & -> & Hf & _);
      [cbn; auto | vm_compute; reflexivity |].
    destruct (Hf 20 (Hfirst ("1BD8" : str) 20 ltac:(vm_compute; reflexivity) ltac:(lia)))
      as (_ & _ & F & _).
    destruct (F ltac:(vm_compute; reflexivity)) as [E _].
    cbn [fmap option_fmap option_map]. now rewrite E.
Defined.

(** A stream that contains 19D821, 1AD800 and 1BD800, decoded on a timer
    whose zone 1 is on, leaves zone 1 off_idle: the text 19D8 of its
    sequence field comes first and is followed by 00.  And the three tags
    alone, a stream of 18 characters, leave an idle zone 1 idle. *)
Lemma status_tag_in_sequence_field :
  PyStr.contains stream_with_early_tag "19D821" = true /\
  PyStr.contains stream_with_early_tag "1AD800" = true /\
  PyStr.contains stream_with_early_tag "1BD800" = true /\
  50 <= PyStr.len stream_with_early_tag /\
  status <$> zone_of (after (Diivoo._parse_hex_status_data example_stream) example_timer) 1
  = Some ("on" : str) /\
  status <$> zone_of (after (Diivoo._parse_hex_status_data stream_with_early_tag)
                        (after (Diivoo._parse_hex_status_data example_stream) example_timer)) 1
  = Some ("off_idle" : str) /\
  active <$> zone_of (after (Diivoo._parse_hex_status_data stream_with_early_tag)
                        (after (Diivoo._parse_hex_status_data example_stream) example_timer)) 1
  = Some false /\
  PyStr.contains short_stream "19D821" = true /\
  status <$> zone_of (after (Diivoo._parse_hex_status_data short_stream) example_timer) 1
  = Some ("off_idle" : str).
Proof.
  repeat split; vm_compute; congruence.
Qed.

(** ** Countdown timers and duration settings *)

Section TimerTags.
Import PyStr Diivoo.

Lemma startswith_app (p x : str) : startswith p (p ++ x) = true.
Proof.
  apply startswith_take. rewrite take_app_length'; reflexivity.
Qed.

Lemma value_after_tag (hex_data p : str) (pos : Z) (k : nat) :
  length p = 4%nat -> occurs_at hex_data p pos ->
  startswith p (slice hex_data pos (pos + Z.of_nat (4 + k))) = true /\
  slice_from (slice hex_data pos (pos + Z.of_nat (4 + k))) 4
  = slice hex_data (pos + 4) (pos + 4 + Z.of_nat k).
Proof.
  intros Hp Hocc. pose proof (slice_at_occurrence hex_data p pos k Hocc) as H.
  rewrite Hp in H. rewrite H. destruct Hocc as [Hpos _]. split.
  - apply startswith_app.
  - rewrite slice_from_drop by lia.
    change (Z.to_nat 4) with 4%nat. rewrite <- Hp at 1.
    rewrite drop_app_length. rewrite slice_take_drop by lia.
    rewrite Nat2Z.id. do 2 f_equal. lia.
Qed.

Lemma timer_update_found (hex_data p : str) (z : zone) (pos : Z) :
  In p timer_patterns -> first_occurrence hex_data p pos ->
  pos + 12 <= len hex_data ->
  timer_update hex_data p z
  = set_countdown_timer
      (match int_of_str 16 (slice hex_data (pos + 4) (pos + 12)) with
       | Ok v => v
       | Raise _ => 0
       end) z.
Proof.
  intros Hp Hfirst Hlen.
  pose proof (first_occurrence_nonneg _ _ _ Hfirst) as Hpos.
  assert (Hl : length p = 4%nat) by (destruct Hp as [<-|[<-|[<-|[]]]]; reflexivity).
  destruct (value_after_tag hex_data p pos 8 Hl (proj1 Hfirst)) as [Hs Hv].
  change (pos + Z.of_nat (4 + 8)) with (pos + 12) in Hs, Hv.
  replace (pos + 4 + Z.of_nat 8) with (pos + 12) in Hv by lia.
  unfold timer_update. rewrite (find_first_occurrence _ _ _ Hfirst).
  replace ((0 <=? pos) && (pos + 12 <=? len hex_data)) with true by lia.
  rewrite Hs, Hv. now destruct (int_of_str 16 _).
Qed.

Lemma duration_update_found (hex_data p : str) (z : zone) (pos : Z) :
  In p duration_patterns -> first_occurrence hex_data p pos ->
  pos + 8 <= len hex_data ->
  duration_update hex_data p z
  = set_duration_setting
      (match int_of_str 16 (slice hex_data (pos + 4) (pos + 8)) with
       | Ok v => v
       | Raise _ => 0
       end) z.
Proof.
  intros Hp Hfirst Hlen.
  pose proof (first_occurrence_nonneg _ _ _ Hfirst) as Hpos.
  assert (Hl : length p = 4%nat) by (destruct Hp as [<-|[<-|[<-|[]]]]; reflexivity).
  destruct (value_after_tag hex_data p pos 4 Hl (proj1 Hfirst)) as [Hs Hv].
  change (pos + Z.of_nat (4 + 4)) with (pos + 8) in Hs, Hv.
  replace (pos + 4 + Z.of_nat 4) with (pos + 8) in Hv by lia.
  unfold duration_update. rewrite (find_first_occurrence _ _ _ Hfirst).
  replace ((0 <=? pos) && (pos + 8 <=? len hex_data)) with true by lia.
  rewrite Hs, Hv. now destruct (int_of_str 16 _).
Qed.

(** The value characters, when all of them are hexadecimal digits, convert
    to their big-endian value. *)
Lemma hex_value_of_slice (hex_data : str) (i k : Z) :
  0 <= i -> 0 < k -> i + k <= len hex_data ->
  hex_digits (slice hex_data i (i + k)) ->
  int_of_str 16 (slice hex_data i (i + k))
  = Ok (big_endian_value (slice hex_data i (i + k))).
Proof.
  intros Hi Hk Hlen Hhex. apply int_of_str_digits; [lia| |exact Hhex].
  intros E. apply (f_equal (@length ascii)) in E.
  rewrite slice_take_drop, length_take, length_drop in E by lia.
  unfold len in Hlen. cbn [length] in E. lia.
Qed.

Lemma zone_after_timers (self : attrs) (hex_data : str) (n : nat) (p : str) (z : zone) :
  has_zones self -> In (n, p) (enumerate 1 timer_patterns) ->
  zone_of self n = Some z ->
  zone_of (after (_parse_countdown_timers_precise hex_data) self) n
  = Some (timer_update hex_data p z).
Proof.
  intros Hself Hin Hz.
  destruct (has_zones_table self Hself) as (zs & Hzs & H1 & H2 & H3).
  unfold after. rewrite (countdown_timers_eq hex_data self zs Hzs H1 H2 H3).
  cbn [snd]. rewrite zone_of_with_zones.
  unfold zone_of in Hz. rewrite Hzs in Hz. unfold timer_patterns in *.
  destruct (zones_updated_lookup (timer_update hex_data) "21B7" "22B7" "23B7" zs)
    as (T1 & T2 & T3).
  cbn [enumerate In] in Hin.
  destruct Hin as [[= <- <-]|[[= <- <-]|[[= <- <-]|[]]]];
    rewrite ?T1, ?T2, ?T3, Hz; reflexivity.
Qed.

Lemma zone_after_durations (self : attrs) (hex_data : str) (n : nat) (p : str) (z : zone) :
  has_zones self -> In (n, p) (enumerate 1 duration_patterns) ->
  zone_of self n = Some z ->
  zone_of (after (_parse_duration_settings_precise hex_data) self) n
  = Some (duration_update hex_data p z).
Proof.
  intros Hself Hin Hz.
  destruct (has_zones_table self Hself) as (zs & Hzs & H1 & H2 & H3).
  unfold after. rewrite (duration_settings_eq hex_data self zs Hzs H1 H2 H3).
  cbn [snd]. rewrite zone_of_with_zones.
  unfold zone_of in Hz. rewrite Hzs in Hz. unfold duration_patterns in *.
  destruct (zones_updated_lookup (duration_update hex_data) "25AD" "26AD" "27AD" zs)
    as (T1 & T2 & T3).
  cbn [enumerate In] in Hin.
  destruct Hin as [[= <- <-]|[[= <- <-]|[[= <- <-]|[]]]];
    rewrite ?T1, ?T2, ?T3, Hz; reflexivity.
Qed.

End TimerTags.

(** C5. On an object with its three zones and for every hex stream: when
    the countdown-timer tag of zone n (21B7, 22B7, 23B7) is found, at its
    first occurrence, with at least 8 characters after it, the zone's
    countdown_timer becomes the big-endian value of those 8 characters when
    they are hexadecimal digits, more generally the value [int(_, 16)]
    gives them, and 0 when [int(_, 16)] rejects them; the same holds for the
    duration tags (25AD, 26AD, 27AD), 4 characters and duration_setting.
    In particular 21B79AE7DE15 gives countdown_timer = 0x9AE7DE15 and
    25ADDC05 gives duration_setting = 0xDC05. *)
Theorem timer_and_duration_values (self : attrs) (hex_data : str) :
  has_zones self ->
  (forall n pattern pos z,
      In (n, pattern) (enumerate 1 Diivoo.timer_patterns) ->
      zone_of self n = Some z ->
      first_occurrence hex_data pattern pos ->
      pos + 4 + 8 <= PyStr.len hex_data ->
      let digits := PyStr.slice hex_data (pos + 4) (pos + 12) in
      exists z',
        zone_of (after (Diivoo._parse_countdown_timers_precise hex_data) self) n
        = Some z' /\
        (hex_digits digits -> countdown_timer z' = big_endian_value digits) /\
        (forall v, PyStr.int_of_str 16 digits = Ok v -> countdown_timer z' = v) /\
        (raises (PyStr.int_of_str 16 digits) = true -> countdown_timer z' = 0)) /\
  (forall n pattern pos z,
      In (n, pattern) (enumerate 1 Diivoo.duration_patterns) ->
      zone_of self n = Some z ->
      first_occurrence hex_data pattern pos ->
      pos + 4 + 4 <= PyStr.len hex_data ->
      let digits := PyStr.slice hex_data (pos + 4) (pos + 8) in
      exists z',
        zone_of (after (Diivoo._parse_duration_settings_precise hex_data) self) n
        = Some z' /\
        (hex_digits digits -> duration_setting z' = big_endian_value digits) /\
        (forall v, PyStr.int_of_str 16 digits = Ok v -> duration_setting z' = v) /\
        (raises (PyStr.int_of_str 16 digits) = true -> duration_setting z' = 0)) /\
  countdown_timer <$>
    zone_of (after (Diivoo._parse_countdown_timers_precise "21B79AE7DE15") example_timer) 1
  = Some 0x9AE7DE15 /\
  duration_setting <$>
    zone_of (after (Diivoo._parse_duration_settings_precise "25ADDC05") example_timer) 1
  = Some 0xDC05.
Proof.
  intros Hself. split; [|split; [|split; vm_compute; reflexivity]].
  - intros n p pos z Hin Hz Hfirst Hlen digits.
    pose proof (first_occurrence_nonneg _ _ _ Hfirst) as Hpos.
    assert (Hp : In p Diivoo.timer_patterns).
    { cbn [enumerate In Diivoo.timer_patterns] in *.
      destruct Hin as [[= <- <-]|[[= <- <-]|[[= <- <-]|[]]]]; auto. }
    rewrite (zone_after_timers self hex_data n p z Hself Hin Hz).
    rewrite (timer_update_found hex_data p z pos Hp Hfirst) by lia.
    fold digits. eexists; split; [reflexivity|]. cbn [countdown_timer Diivoo.set_countdown_timer].
    repeat split.
    + intros Hhex. unfold digits in *.
      replace (pos + 12) with (pos + 4 + 8) in * by lia.
      rewrite hex_value_of_slice by (assumption || lia). reflexivity.
    + now intros v ->.
    + destruct (PyStr.int_of_str 16 digits); [discriminate|reflexivity].
  - intros n p pos z Hin Hz Hfirst Hlen digits.
    pose proof (first_occurrence_nonneg _ _ _ Hfirst) as Hpos.
    assert (Hp : In p Diivoo.duration_patterns).
    { cbn [enumerate In Diivoo.duration_patterns] in *.
      destruct Hin as [[= <- <-]|[[= <- <-]|[[= <- <-]|[]]]]; auto. }
    rewrite (zone_after_durations self hex_data n p z Hself Hin Hz).
    rewrite (duration_update_found hex_data p z pos Hp Hfirst) by lia.
    fold digits. eexists; split; [reflexivity|]. cbn [duration_setting Diivoo.set_duration_setting].
    repeat split.
    + intros Hhex. unfold digits in *.
      replace (pos + 8) with (pos + 4 + 4) in * by lia.
      rewrite hex_value_of_slice by (assumption || lia). reflexivity.
    + now intros v ->.
    + destruct (PyStr.int_of_str 16 digits); [discriminate|reflexivity].
Qed.

(** ** Frame reasoning for methods *)

Section Respects.
Variable R : attrs -> attrs -> Prop.
Hypothesis R_refl : forall s, R s s.
Hypothesis R_trans : forall s1 s2 s3, R s1 s2 -> R s2 s3 -> R s1 s3.

Lemma respects_ret {A} (a : A) : respects R (ret a).
Proof using R_refl R_trans. intros self. apply R_refl. Qed.

Lemma respects_lift {A} (r : result A) : respects R (lift r).
Proof using R_refl R_trans. intros self. apply R_refl. Qed.

Lemma respects_raise {A} (e : exn) : respects R (@raise A e).
Proof using R_refl R_trans. intros self. apply R_refl. Qed.

Lemma respects_getattr (k : str) : respects R (getattr k).
Proof using R_refl R_trans. intros self. unfold after, getattr. destruct (self !! k); apply R_refl. Qed.

Lemma respects_mbind {A B} (m : method A) (f : A -> method B) :
  respects R m -> (forall a, respects R (f a)) -> respects R (mbind m f).
Proof using R_refl R_trans.
  intros Hm Hf self. unfold after, mbind.
  specialize (Hm self). unfold after in Hm.
  destruct (m self) as [[a|e] self']; cbn [snd] in *; [|exact Hm].
  eapply R_trans; [exact Hm|]. apply Hf.
Qed.

(** A continuation may use what a lifted computation returned. *)
Lemma respects_mbind_lift {A B} (r : result A) (f : A -> method B) :
  (forall a, r = Ok a -> respects R (f a)) -> respects R (mbind (lift r) f).
Proof using R_refl R_trans.
  intros Hf self. unfold after, mbind, lift.
  destruct r as [a|e]; [now apply Hf|apply R_refl].
Qed.

Lemma respects_try_except (m : method unit) (h : exn -> method unit) :
  respects R m -> (forall e, respects R (h e)) -> respects R (try_except m h).
Proof using R_refl R_trans.
  intros Hm Hh self. unfold after, try_except.
  specialize (Hm self). unfold after in Hm.
  destruct (m self) as [[a|e] self']; cbn [snd] in *; [exact Hm|].
  eapply R_trans; [exact Hm|]. apply Hh.
Qed.

Lemma respects_for_each {A} (l : list A) (body : A -> method unit) :
  (forall x, respects R (body x)) -> respects R (for_each l body).
Proof using R_refl R_trans.
  intros Hb. induction l as [|x l IH]; cbn [for_each].
  - apply respects_ret.
  - apply respects_mbind; [apply Hb|intros _; exact IH].
Qed.

End Respects.

Lemma same_at_refl (k : str) (s : attrs) : same_at k s s.
Proof. reflexivity. Qed.

Lemma same_at_trans (k : str) (s1 s2 s3 : attrs) :
  same_at k s1 s2 -> same_at k s2 s3 -> same_at k s1 s3.
Proof. unfold same_at. congruence. Qed.

Lemma not_nulled_at_refl (k : str) (s : attrs) : not_nulled_at k s s.
Proof. now intros H. Qed.

Lemma not_nulled_at_trans (k : str) (s1 s2 s3 : attrs) :
  not_nulled_at k s1 s2 -> not_nulled_at k s2 s3 -> not_nulled_at k s1 s3.
Proof. unfold not_nulled_at. auto. Qed.

Lemma same_at_setattr (k k' : str) (v : pyval) :
  k <> k' -> respects (same_at k) (setattr k' v).
Proof.
  intros H self. unfold same_at, after, setattr. cbn [snd].
  now rewrite lookup_insert_ne.
Qed.

Lemma not_nulled_at_setattr (k k' : str) (v : pyval) :
  k <> k' \/ v <> PNone -> respects (not_nulled_at k) (setattr k' v).
Proof.
  intros H self. unfold not_nulled_at, after, setattr. cbn [snd].
  destruct (decide (k' = k)) as [->|Hne].
  - rewrite lookup_insert_eq. intros [= ->]. now destruct H.
  - now rewrite lookup_insert_ne.
Qed.

Lemma same_at_not_nulled (k : str) {A} (m : method A) :
  respects (same_at k) m -> respects (not_nulled_at k) m.
Proof. intros H self E. now rewrite <- (H self). Qed.

(** Splits a method into its steps, each respecting [R]; [leaf] is tried
    first on every step. *)
Ltac respects_steps Rrefl Rtrans leaf :=
  repeat first
    [ solve [leaf]
    | apply (respects_ret _ Rrefl Rtrans)
    | apply (respects_lift _ Rrefl Rtrans)
    | apply (respects_raise _ Rrefl Rtrans)
    | apply (respects_getattr _ Rrefl Rtrans)
    | apply (respects_mbind _ Rrefl Rtrans); [|intros ?]
    | apply (respects_try_except _ Rrefl Rtrans); [|intros ?]
    | apply (respects_for_each _ Rrefl Rtrans); intros ?
    | progress case_match ].

(** ** What a decode pass may change *)

Section DecodersFrame.
Import PyStr.

Ltac steps_same_with k leaf :=
  respects_steps (same_at_refl k) (same_at_trans k) leaf.
Ltac steps_not_nulled_with k leaf :=
  respects_steps (not_nulled_at_refl k) (not_nulled_at_trans k) leaf.
Ltac steps_same k := steps_same_with k fail.
Ltac steps_not_nulled k := steps_not_nulled_with k fail.

(** [k] is none of the listed names. *)
Ltac other_name H :=
  let E := fresh in
  intros E; apply H; rewrite E; cbn; repeat first [left; reflexivity | right].

Lemma setattr4_same_at (k k1 k2 k3 k4 : str) (t : pyval * pyval * pyval * pyval) :
  ~ In k [k1; k2; k3; k4] ->
  respects (same_at k) (Devices.setattr4 k1 k2 k3 k4 t).
Proof.
  intros H. destruct t as [[[a b] c] d]. unfold Devices.setattr4.
  steps_same k; apply same_at_setattr; intros ->; apply H; cbn; auto.
Qed.

Lemma setattr4_not_nulled (k k1 k2 k3 k4 : str) (a b c d : pyval) :
  ~ In k [k1; k2; k3; k4] \/
  (a <> PNone /\ b <> PNone /\ c <> PNone /\ d <> PNone) ->
  respects (not_nulled_at k) (Devices.setattr4 k1 k2 k3 k4 (a, b, c, d)).
Proof.
  intros H. unfold Devices.setattr4.
  steps_not_nulled k; apply not_nulled_at_setattr;
    (destruct H as [H|H]; [left; intros ->; apply H; cbn; auto | right; tauto]).
Qed.

Lemma map4_temp_ints (t r : pyval * pyval * pyval * pyval) :
  Devices.map4 Devices.temp_to_mk_val t = Ok r ->
  exists a b c d, r = (PInt a, PInt b, PInt c, PInt d).
Proof.
  destruct t as [[[a b] c] d]. unfold Devices.map4, Devices.temp_to_mk_val.
  destruct (_temp_to_mk a); [|discriminate].
  destruct (_temp_to_mk b); [|discriminate].
  destruct (_temp_to_mk c); [|discriminate].
  destruct (_temp_to_mk d); [|discriminate].
  cbn [bind]. intros [= <-]. eauto.
Qed.

Lemma tenth_of_float (v r : pyval) :
  Devices.tenth_of v = Ok r -> exists x, r = PFloat x.
Proof.
  destruct v; cbn [Devices.tenth_of]; try discriminate.
  - intros [= <-]. eauto.
  - destruct (PyFloat.of_int z); cbn [bind]; [|discriminate]. intros [= <-]. eauto.
  - intros [= <-]. eauto.
Qed.

Lemma map4_tenth_floats (t r : pyval * pyval * pyval * pyval) :
  Devices.map4 Devices.tenth_of t = Ok r ->
  exists a b c d, r = (PFloat a, PFloat b, PFloat c, PFloat d).
Proof.
  destruct t as [[[a b] c] d]. unfold Devices.map4.
  destruct (Devices.tenth_of a) as [a'|] eqn:Ea; [|discriminate].
  destruct (Devices.tenth_of b) as [b'|] eqn:Eb; [|discriminate].
  destruct (Devices.tenth_of c) as [c'|] eqn:Ec; [|discriminate].
  destruct (Devices.tenth_of d) as [d'|] eqn:Ed; [|discriminate].
  cbn [bind]. intros [= <-].
  apply tenth_of_float in Ea as [? ->], Eb as [? ->], Ec as [? ->], Ed as [? ->].
  eauto.
Qed.

Lemma update_zone_same_at (k : str) (n : nat) (f : zone -> zone) :
  k <> ("zones" : str) -> respects (same_at k) (Diivoo.update_zone n f).
Proof.
  intros H. unfold Diivoo.update_zone. steps_same k. now apply same_at_setattr.
Qed.

Lemma update_zone_not_nulled (k : str) (n : nat) (f : zone -> zone) :
  respects (not_nulled_at k) (Diivoo.update_zone n f).
Proof.
  unfold Diivoo.update_zone. steps_not_nulled k.
  apply not_nulled_at_setattr. now right.
Qed.

Lemma get_zone_same_at (k : str) (n : nat) : respects (same_at k) (Diivoo.get_zone n).
Proof. unfold Diivoo.get_zone. steps_same k. Qed.

Lemma hex_status_data_same_at (k : str) (hex_data : str) :
  k <> ("zones" : str) -> k <> ("sequence" : str) ->
  respects (same_at k) (Diivoo._parse_hex_status_data hex_data).
Proof.
  intros Hz Hs.
  unfold Diivoo._parse_hex_status_data, Diivoo._parse_port_statuses_precise,
    Diivoo._parse_countdown_timers_precise, Diivoo._parse_duration_settings_precise,
    Diivoo.parse_port_status, Diivoo.parse_countdown_timer,
    Diivoo.parse_duration_setting.
  steps_same k;
    first [ apply update_zone_same_at; assumption
          | apply get_zone_same_at
          | apply same_at_setattr; assumption ].
Qed.

Lemma hex_status_data_not_nulled (k : str) (hex_data : str) :
  respects (not_nulled_at k) (Diivoo._parse_hex_status_data hex_data).
Proof.
  unfold Diivoo._parse_hex_status_data, Diivoo._parse_port_statuses_precise,
    Diivoo._parse_countdown_timers_precise, Diivoo._parse_duration_settings_precise,
    Diivoo.parse_port_status, Diivoo.parse_countdown_timer,
    Diivoo.parse_duration_setting.
  steps_not_nulled k;
    first [ apply update_zone_not_nulled
          | apply same_at_not_nulled, get_zone_same_at
          | apply not_nulled_at_setattr; now right ].
Qed.

Lemma diivoo_specific_same_at (k s : str) :
  ~ In k (decoded_fields DiivooWT11W) ->
  respects (same_at k) (Diivoo._parse_device_specific_status_d_value s).
Proof.
  intros H. unfold Diivoo._parse_device_specific_status_d_value.
  steps_same k;
    first [ apply hex_status_data_same_at; other_name H
          | apply same_at_setattr; other_name H ].
Qed.

Lemma diivoo_specific_not_nulled (k s : str) :
  respects (not_nulled_at k) (Diivoo._parse_device_specific_status_d_value s).
Proof.
  unfold Diivoo._parse_device_specific_status_d_value.
  steps_not_nulled k;
    first [ apply hex_status_data_not_nulled
          | apply not_nulled_at_setattr; now right ].
Qed.

Lemma display_hub_specific_same_at (k s : str) :
  ~ In k (decoded_fields RainPointDisplayHub) ->
  respects (same_at k) (Devices.display_hub_specific s).
Proof.
  intros H. unfold Devices.display_hub_specific.
  steps_same k; apply setattr4_same_at; intros Hin; apply H;
    cbn in Hin |- *; tauto.
Qed.

Lemma air_sensor_specific_same_at (k s : str) :
  ~ In k (decoded_fields RainPointAirSensor) ->
  respects (same_at k) (Devices.air_sensor_specific s).
Proof.
  intros H. unfold Devices.air_sensor_specific.
  steps_same k; apply setattr4_same_at; intros Hin; apply H;
    cbn in Hin |- *; tauto.
Qed.

Lemma rain_sensor_specific_same_at (k s : str) :
  ~ In k (decoded_fields RainPointRainSensor) ->
  respects (same_at k) (Devices.rain_sensor_specific s).
Proof.
  intros H. unfold Devices.rain_sensor_specific.
  steps_same k. now apply setattr4_same_at.
Qed.

Lemma soil_moisture_specific_same_at (k s : str) :
  ~ In k (decoded_fields RainPointSoilMoistureSensor) ->
  respects (same_at k) (Devices.soil_moisture_specific s).
Proof.
  intros H. unfold Devices.soil_moisture_specific.
  steps_same k; apply same_at_setattr; other_name H.
Qed.

Lemma specific_same_at (c : variant) (k s : str) :
  ~ In k (decoded_fields c) ->
  respects (same_at k) (Devices._parse_device_specific_status_d_value c s).
Proof.
  intros H. destruct c; cbn [Devices._parse_device_specific_status_d_value];
    first [ apply (respects_ret _ (same_at_refl k) (same_at_trans k))
          | now apply display_hub_specific_same_at
          | now apply soil_moisture_specific_same_at
          | now apply rain_sensor_specific_same_at
          | now apply air_sensor_specific_same_at
          | now apply diivoo_specific_same_at ].
Qed.

End DecodersFrame.

Section DecodersNulling.
Import PyStr.

Ltac steps_same_with k leaf :=
  respects_steps (same_at_refl k) (same_at_trans k) leaf.
Ltac steps_not_nulled_with k leaf :=
  respects_steps (not_nulled_at_refl k) (not_nulled_at_trans k) leaf.
Ltac steps_same k := steps_same_with k fail.
Ltac steps_not_nulled k := steps_not_nulled_with k fail.

Lemma setattr4_not_nulled_other (k k1 k2 k3 k4 : str)
  (t : pyval * pyval * pyval * pyval) :
  ~ In k [k1; k2; k3; k4] ->
  respects (not_nulled_at k) (Devices.setattr4 k1 k2 k3 k4 t).
Proof.
  intros H. destruct t as [[[a b] c] d]. apply setattr4_not_nulled. now left.
Qed.

Lemma display_hub_specific_not_nulled (k s : str) :
  ~ In k (nullable_fields RainPointDisplayHub) ->
  respects (not_nulled_at k) (Devices.display_hub_specific s).
Proof.
  intros H. unfold Devices.display_hub_specific.
  repeat case_match;
    try apply (respects_raise _ (not_nulled_at_refl k) (not_nulled_at_trans k)).
  apply (respects_mbind_lift _ (not_nulled_at_refl k) (not_nulled_at_trans k)).
  intros stats _.
  apply (respects_mbind_lift _ (not_nulled_at_refl k) (not_nulled_at_trans k)).
  intros temps Ht. apply map4_temp_ints in Ht as (a & b & c & d & ->).
  steps_not_nulled k;
    first [ apply not_nulled_at_setattr; right; discriminate
          | apply setattr4_not_nulled_other; intros Hin; apply H;
            cbn in Hin |- *; tauto ].
Qed.

Lemma air_sensor_specific_not_nulled (k s : str) :
  ~ In k (nullable_fields RainPointAirSensor) ->
  respects (not_nulled_at k) (Devices.air_sensor_specific s).
Proof.
  intros H. unfold Devices.air_sensor_specific.
  repeat case_match;
    try apply (respects_raise _ (not_nulled_at_refl k) (not_nulled_at_trans k)).
  apply (respects_mbind_lift _ (not_nulled_at_refl k) (not_nulled_at_trans k)).
  intros stats _.
  apply (respects_mbind_lift _ (not_nulled_at_refl k) (not_nulled_at_trans k)).
  intros temps Ht. apply map4_temp_ints in Ht as (a & b & c & d & ->).
  steps_not_nulled k;
    first [ apply not_nulled_at_setattr; right; discriminate
          | apply setattr4_not_nulled_other; intros Hin; apply H;
            cbn in Hin |- *; tauto ].
Qed.

Lemma rain_sensor_specific_not_nulled (k s : str) :
  respects (not_nulled_at k) (Devices.rain_sensor_specific s).
Proof.
  unfold Devices.rain_sensor_specific.
  apply (respects_mbind_lift _ (not_nulled_at_refl k) (not_nulled_at_trans k)).
  intros stats _.
  apply (respects_mbind_lift _ (not_nulled_at_refl k) (not_nulled_at_trans k)).
  intros mm Hm. apply map4_tenth_floats in Hm as (a & b & c & d & ->).
  apply setattr4_not_nulled. right. repeat split; discriminate.
Qed.

Lemma soil_moisture_specific_not_nulled (k s : str) :
  respects (not_nulled_at k) (Devices.soil_moisture_specific s).
Proof.
  intros self. unfold not_nulled_at, after, Devices.soil_moisture_specific.
  destruct (split "," s) as [|t [|m [|l [|? ?]]]]; try (cbn; tauto).
  unfold mbind, lift, setattr.
  destruct (_temp_to_mk (PStr t)); cbn [fst snd]; [|tauto].
  destruct (py_int (PStr m)); cbn [fst snd];
    [|rewrite lookup_insert; case_decide; congruence].
  destruct (py_int (PStr (slice_from l 2))); cbn [fst snd];
    [|rewrite !lookup_insert; repeat case_decide; congruence].
  destruct (Devices.tenth_of (PInt a1)) as [lx|] eqn:E; cbn [fst snd];
    [apply tenth_of_float in E as [x ->]|];
    rewrite !lookup_insert; repeat case_decide; congruence.
Qed.

Lemma specific_not_nulled (c : variant) (k s : str) :
  ~ In k (nullable_fields c) ->
  respects (not_nulled_at k) (Devices._parse_device_specific_status_d_value c s).
Proof.
  intros H. destruct c; cbn [Devices._parse_device_specific_status_d_value];
    first [ apply (respects_ret _ (not_nulled_at_refl k) (not_nulled_at_trans k))
          | now apply display_hub_specific_not_nulled
          | apply soil_moisture_specific_not_nulled
          | apply rain_sensor_specific_not_nulled
          | now apply air_sensor_specific_not_nulled
          | apply diivoo_specific_not_nulled ].
Qed.

Lemma general_same_at (k s : str) :
  k <> ("rf_rssi" : str) ->
  respects (same_at k) (Devices._parse_general_status_d_value s).
Proof.
  intros H. unfold Devices._parse_general_status_d_value.
  steps_same k. now apply same_at_setattr.
Qed.

Lemma general_not_nulled (k s : str) :
  respects (not_nulled_at k) (Devices._parse_general_status_d_value s).
Proof.
  unfold Devices._parse_general_status_d_value.
  steps_not_nulled k. apply not_nulled_at_setattr. now right.
Qed.

Lemma status_id_same_at (k : str) : respects (same_at k) Devices.status_id_of_address.
Proof. unfold Devices.status_id_of_address. steps_same k. Qed.

Lemma parse_status_d_value_same_at (c : variant) (val k : str) :
  k <> ("rf_rssi" : str) -> ~ In k (decoded_fields c) ->
  respects (same_at k) (Devices._parse_status_d_value c val).
Proof.
  intros Hr H. unfold Devices._parse_status_d_value.
  steps_same k; first [ now apply general_same_at | now apply specific_same_at ].
Qed.

Lemma parse_status_d_value_not_nulled (c : variant) (val k : str) :
  ~ In k (nullable_fields c) ->
  respects (not_nulled_at k) (Devices._parse_status_d_value c val).
Proof.
  intros H. unfold Devices._parse_status_d_value.
  steps_not_nulled k;
    first [ apply general_not_nulled | now apply specific_not_nulled ].
Qed.

Lemma base_set_device_status_same_at (c : variant) (o : api_obj) (k : str) :
  k <> ("rf_rssi" : str) -> ~ In k (decoded_fields c) ->
  respects (same_at k) (Devices.base_set_device_status c o).
Proof.
  intros Hr H. unfold Devices.base_set_device_status.
  steps_same k;
    first [ apply status_id_same_at | now apply parse_status_d_value_same_at ].
Qed.

Lemma base_set_device_status_not_nulled (c : variant) (o : api_obj) (k : str) :
  ~ In k (nullable_fields c) ->
  respects (not_nulled_at k) (Devices.base_set_device_status c o).
Proof.
  intros H. unfold Devices.base_set_device_status.
  steps_not_nulled k;
    first [ apply same_at_not_nulled, status_id_same_at
          | now apply parse_status_d_value_not_nulled ].
Qed.

Lemma set_device_status_same_at (c : variant) (o : api_obj) (k : str) :
  ~ In k (written_fields c) ->
  respects (same_at k) (Devices.set_device_status c o).
Proof.
  intros H.
  assert (Hd : ~ In k (decoded_fields c)).
  { intros Hin. apply H. destruct c; cbn [written_fields];
      first [ now right | apply in_or_app; now right ]. }
  destruct c; cbn [Devices.set_device_status];
    try (apply base_set_device_status_same_at; [|exact Hd];
         intros ->; apply H; now left).
  - unfold Devices.display_hub_set_device_status.
    steps_same k;
      first [ apply status_id_same_at
            | apply parse_status_d_value_same_at; [|exact Hd];
              intros ->; apply H; cbn; tauto
            | apply same_at_setattr; intros ->; apply H; cbn; tauto ].
  - unfold Devices.diivoo_set_device_status.
    steps_same_with k
      ltac:(first [ apply status_id_same_at
                  | apply get_zone_same_at
                  | now apply diivoo_specific_same_at
                  | apply same_at_setattr; intros ->; apply H; cbn; tauto ]).
Qed.

Lemma set_device_status_not_nulled (c : variant) (o : api_obj) (k : str) :
  ~ In k (nullable_fields c) ->
  respects (not_nulled_at k) (Devices.set_device_status c o).
Proof.
  intros H.
  destruct c; cbn [Devices.set_device_status];
    try (now apply base_set_device_status_not_nulled).
  - unfold Devices.display_hub_set_device_status.
    steps_not_nulled k;
      first [ apply same_at_not_nulled, status_id_same_at
            | now apply parse_status_d_value_not_nulled
            | apply not_nulled_at_setattr; now right ].
  - unfold Devices.diivoo_set_device_status.
    steps_not_nulled_with k
      ltac:(first [ apply same_at_not_nulled, status_id_same_at
                  | apply same_at_not_nulled, get_zone_same_at
                  | apply diivoo_specific_not_nulled
                  | apply not_nulled_at_setattr; now right ]).
Qed.

End DecodersNulling.

(** ** Decode passes: what they keep, and when they raise *)

Section DecodePasses.
Import PyStr.

(** Looks a literal name up in a chain of assignments to literal names. *)
Ltac lookup_written :=
  repeat first
    [ rewrite lookup_insert_eq; reflexivity
    | rewrite lookup_insert_ne
        by (let E := fresh in intros E; vm_compute in E; discriminate E) ].

(** A loop that updates the three zones keeps, in every zone, what each
    update keeps. *)
Lemma zones_updated_keeps (P : zone -> zone -> Prop) (upd : str -> zone -> zone)
  (p1 p2 p3 : str) (zs : gmap nat zone) (n : nat) (z : zone) :
  (forall z, P z z) -> (forall p z, P z (upd p z)) ->
  zs !! n = Some z ->
  exists z', zones_updated upd [p1; p2; p3] zs !! n = Some z' /\ P z z'.
Proof.
  intros Prefl Pupd Hz. unfold zones_updated. cbn [nth].
  destruct (decide (n = 3%nat)) as [->|N3].
  { rewrite lookup_alter_eq, !lookup_alter_ne, Hz by done. cbn. eauto. }
  rewrite lookup_alter_ne by done.
  destruct (decide (n = 2%nat)) as [->|N2].
  { rewrite lookup_alter_eq, !lookup_alter_ne, Hz by done. cbn. eauto. }
  rewrite lookup_alter_ne by done.
  destruct (decide (n = 1%nat)) as [->|N1].
  { rewrite lookup_alter_eq, Hz. cbn. eauto. }
  rewrite lookup_alter_ne by done. eauto.
Qed.

Lemma display_hub_group_nulled (s : str) (self : attrs)
  (temp_str hum_str press_str : str) (rest : list str) :
  split "," s = temp_str :: hum_str :: press_str :: rest ->
  outcome (Devices.display_hub_specific s) self = Ok tt ->
  (STATS_VALUE_REGEX_fullmatch hum_str = None ->
   forall k, In k hum_fields ->
   after (Devices.display_hub_specific s) self !! k = Some PNone) /\
  (STATS_VALUE_REGEX_fullmatch (slice_from press_str 2) = None ->
   forall k, In k press_fields ->
   after (Devices.display_hub_specific s) self !! k = Some PNone).
Proof.
  intros Hsplit. unfold outcome, after, Devices.display_hub_specific.
  rewrite Hsplit. unfold mbind, lift.
  destruct (_parse_stats_value temp_str) as [stats|]; cbn [fst snd]; [|discriminate].
  destruct (Devices.map4 Devices.temp_to_mk_val stats) as [[[[a b] c] d]|];
    cbn [fst snd]; [|discriminate].
  destruct (parse_stats_value_total hum_str) as (th & -> & Hh & _).
  destruct (parse_stats_value_total (slice_from press_str 2)) as (tp & -> & Hp & _).
  destruct th as [[[h1 h2] h3] h4], tp as [[[p1 p2] p3] p4].
  cbn [Devices.setattr4 mbind setattr fst snd]. unfold mbind, setattr. cbn [fst snd].
  intros _. split.
  - intros E k Hk. specialize (Hh E). injection Hh as -> -> -> ->.
    cbn [In hum_fields] in Hk.
    destruct Hk as [<-|[<-|[<-|[<-|[]]]]]; lookup_written.
  - intros E k Hk. specialize (Hp E). injection Hp as -> -> -> ->.
    cbn [In press_fields] in Hk.
    destruct Hk as [<-|[<-|[<-|[<-|[]]]]]; lookup_written.
Qed.

Lemma port_statuses_keep_timers (self : attrs) (hex_data : str) (n : nat) (z : zone) :
  has_zones self -> zone_of self n = Some z ->
  exists z',
    zone_of (after (Diivoo._parse_port_statuses_precise hex_data) self) n = Some z' /\
    countdown_timer z' = countdown_timer z /\
    duration_setting z' = duration_setting z.
Proof.
  intros Hself Hz.
  destruct (has_zones_table self Hself) as (zs & Hzs & H1 & H2 & H3).
  unfold after. rewrite (port_statuses_eq hex_data self zs Hzs H1 H2 H3).
  cbn [snd]. rewrite zone_of_with_zones.
  unfold zone_of in Hz. rewrite Hzs in Hz. unfold Diivoo.port_patterns.
  apply (zones_updated_keeps
           (fun z z' => countdown_timer z' = countdown_timer z /\
                        duration_setting z' = duration_setting z));
    [tauto| |exact Hz].
  intros p z0. apply status_update_timers.
Qed.

End DecodePasses.



(** C3, at its failing inputs. A display hub that receives a status value
    whose temperature group is garbled raises [TypeError] to its caller
    ([_temp_to_mk(None)]), and one that receives a value without [';']
    raises [ValueError]; the irrigation timer, whose decoder wraps the pass
    in [try]/[except], returns normally on every value. *)
Theorem garbled_payload_raises :
  outcome (Devices.set_device_status RainPointDisplayHub
             (ApiObj "D01" hub_payload_garbled_temperature)) example_display_hub
  = Raise TypeError /\
  outcome (Devices.set_device_status RainPointDisplayHub
             (ApiObj "D01" hub_payload_truncated)) example_display_hub
  = Raise ValueError /\
  (forall s self,
      outcome (Devices._parse_device_specific_status_d_value DiivooWT11W s) self
      = Ok tt).
Proof.
  split; [vm_compute; reflexivity|]. split; [vm_compute; reflexivity|].
  intros s self. cbn [Devices._parse_device_specific_status_d_value].
  unfold outcome, Diivoo._parse_device_specific_status_d_value, mbind, setattr,
    try_except, ret.
  cbn [fst snd]. destruct (negb _); [reflexivity|].
  destruct (_ <? _)%nat; [reflexivity|]. cbn [fst snd].
  destruct (Diivoo._parse_hex_status_data _ _) as [[[]|e] g]; reflexivity.
Qed.

(** ** Short hex parts *)

Section ShortHexPart.
Import PyStr.

Lemma diivoo_specific_short (s : str) (self : attrs) :
  len (hex_part s) < 50 ->
  outcome (Diivoo._parse_device_specific_status_d_value s) self = Ok tt /\
  forall k, k <> ("raw_status" : str) -> k <> ("hex_status_data" : str) ->
            after (Diivoo._parse_device_specific_status_d_value s) self !! k = self !! k.
Proof.
  intros Hlen. unfold outcome, after, Diivoo._parse_device_specific_status_d_value.
  fold (hex_part s).
  unfold mbind, setattr, try_except, ret, Diivoo._parse_hex_status_data.
  replace (len (hex_part s) <? 50) with true by lia. unfold ret. cbn [fst snd].
  destruct (negb (contains s "#")); [|destruct (length (split "#" s) <? 2)%nat];
    cbn [fst snd]; (split; [reflexivity|]); intros k H1 H2;
    now rewrite !lookup_insert_ne.
Qed.

Lemma diivoo_specific_short_same_at (s k : str) :
  len (hex_part s) < 50 ->
  k <> ("raw_status" : str) -> k <> ("hex_status_data" : str) ->
  respects (same_at k) (Diivoo._parse_device_specific_status_d_value s).
Proof.
  intros Hlen H1 H2 self. now apply diivoo_specific_short.
Qed.

Lemma diivoo_set_device_status_short (o : api_obj) (k : str) :
  len (hex_part (value o)) < 50 ->
  k = ("zones" : str) \/ k = ("sequence" : str) ->
  respects (same_at k) (Devices.set_device_status DiivooWT11W o).
Proof.
  intros Hlen Hk. cbn [Devices.set_device_status].
  unfold Devices.diivoo_set_device_status.
  respects_steps (same_at_refl k) (same_at_trans k)
    ltac:(first [ apply status_id_same_at
                | apply get_zone_same_at
                | apply diivoo_specific_short_same_at;
                  [exact Hlen | destruct Hk as [-> | ->]; discriminate ..]
                | apply same_at_setattr; destruct Hk as [-> | ->]; discriminate ]).
Qed.

End ShortHexPart.

(** C10. For every status record of a DiivooWT11W whose hex part (the text
    after '#') is shorter than 50 characters the tag-hex pass is skipped:
    the decoder returns normally and changes no attribute but raw_status
    and hex_status_data, so that through [set_device_status] the zone
    table (status, active, countdown_timer and duration_setting of every
    zone) and the sequence attribute keep their values, whatever tags the
    hex part contains. *)
Theorem short_hex_part_skipped (self : attrs) (o : api_obj) :
  PyStr.len (hex_part (value o)) < 50 ->
  (outcome (Diivoo._parse_device_specific_status_d_value (value o)) self = Ok tt /\
   forall k, k <> ("raw_status" : str) -> k <> ("hex_status_data" : str) ->
     after (Diivoo._parse_device_specific_status_d_value (value o)) self !! k
     = self !! k) /\
  after (Devices.set_device_status DiivooWT11W o) self !! ("zones" : str)
  = self !! ("zones" : str) /\
  after (Devices.set_device_status DiivooWT11W o) self !! ("sequence" : str)
  = self !! ("sequence" : str) /\
  (forall n, zone_of (after (Devices.set_device_status DiivooWT11W o) self) n
             = zone_of self n).
Proof.
  intros Hlen.
  pose proof (diivoo_set_device_status_short o "zones" Hlen (or_introl eq_refl) self)
    as Hz.
  pose proof (diivoo_set_device_status_short o "sequence" Hlen (or_intror eq_refl) self)
    as Hs.
  unfold same_at in Hz, Hs.
  split; [now apply diivoo_specific_short|]. split; [exact Hz|]. split; [exact Hs|].
  intros n. unfold zone_of. now rewrite Hz.
Qed.

(** The theorem at a record whose short hex part carries a status, a timer
    and a duration tag of zone 1. *)
Lemma short_hex_part_example :
  PyStr.len (hex_part short_timer_payload) < 50 /\
  PyStr.contains (hex_part short_timer_payload) "19D821" = true /\
  zone_of (after (Devices.set_device_status DiivooWT11W (ApiObj "D05" short_timer_payload))
                 example_timer) 1
  = zone_of example_timer 1.
Proof.
  assert (H : PyStr.len (hex_part short_timer_payload) < 50) by (vm_compute; reflexivity).
  split; [exact H|]. split; [vm_compute; reflexivity|].
  apply (short_hex_part_skipped example_timer (ApiObj "D05" short_timer_payload) H).
Defined.

(** The theorem on countdown timers and durations at the example timer and
    the example stream. *)
Lemma timer_and_duration_example :
  has_zones example_timer /\
  countdown_timer <$>
    zone_of (after (Diivoo._parse_countdown_timers_precise example_stream) example_timer) 1
  = Some 0x9AE7DE15.
Proof.
  split; [exact example_timer_has_zones|].
  destruct (timer_and_duration_values example_timer example_stream
              example_timer_has_zones) as [Ht _].
  assert (Hfirst : first_occurrence example_stream "21B7" 44).
  { destruct (find_spec example_stream "21B7") as [[E _]|E];
      [vm_compute in E; discriminate|].
    replace 44 with (PyStr.find example_stream "21B7") by (vm_compute; reflexivity).
    exact E. }
  destruct (Ht 1%nat ("21B7" : str) 44 (Zone false "off_idle" 0 0)) as (z' & -> & _ & Hv & _);
    [cbn; auto | vm_compute; reflexivity | exact Hfirst | vm_compute; discriminate |].
  cbn [fmap option_fmap option_map]. f_equal. apply Hv. vm_compute. reflexivity.
Defined.

(** ** The cloud client *)

Section Client.
Import Api.

Lemma Qle_bool_false (x y : Q) : Qle_bool x y = false <-> (y < x)%Q.
Proof.
  split.
  - intros H. apply Qnot_le_lt. intros Hle. apply Qle_bool_iff in Hle. congruence.
  - intros H. destruct (Qle_bool x y) eqn:E; [|reflexivity].
    apply Qle_bool_iff in E. exfalso. now apply (Qlt_not_le y x).
Qed.

Lemma is_email_spec (v : option jval) (email : str) :
  is_email v email = true <-> v = Some (JStr email).
Proof.
  unfold is_email. destruct v as [[|b|q|s]|]; try (split; discriminate).
  rewrite bool_decide_eq_true. split; congruence.
Qed.

(** [login] sends exactly one request, whatever the server answers. *)
Lemma login_sends (e : env) (email password area_code : str) (self : HomgarApi) :
  exists body, logins (login e email password area_code self).2 = body :: logins self.
Proof.
  unfold login. eexists.
  destruct (post_login e _) as [data|x]; [|reflexivity].
  destruct (as_number (get data "tokenExpired")); reflexivity.
Qed.

Lemma must_login_spec (e : env) (email : str) (self : HomgarApi) :
  (forall v, cache self !! ("token_expires" : str) = Some v -> exists t, v = JNum t) ->
  exists b, must_login e email self = Ok b /\ (b = true <-> login_due e email self).
Proof.
  intros Hnum. unfold must_login, login_due, cached_expiry.
  destruct (is_email (cache self !! ("email" : str)) email) eqn:E; cbn [negb].
  - apply is_email_spec in E.
    destruct (cache self !! ("token_expires" : str)) as [v|] eqn:Ev.
    + destruct (Hnum v eq_refl) as [t ->]. cbn [default as_number bind].
      eexists; split; [reflexivity|]. rewrite negb_true_iff, Qle_bool_false.
      split; [now right|]. intros [H|H]; [congruence|exact H].
    + cbn [default as_number bind].
      eexists; split; [reflexivity|]. rewrite negb_true_iff, Qle_bool_false.
      split; [now right|]. intros [H|H]; [congruence|exact H].
  - exists true. split; [reflexivity|]. split; [|reflexivity]. intros _. left.
    intros H. apply is_email_spec in H. congruence.
Qed.

End Client.



(** What [login] caches is read back as the naive UTC time of the login
    plus the token's lifetime, whatever the host's UTC offset. *)
Lemma login_expiry_is_naive_utc (e : Api.env) (email password area_code : str)
  (self : Api.HomgarApi) (data : gmap str Api.jval) (ttl : Q) (body : gmap str Api.jval) :
  (forall b, Api.post_login e b = Ok data) ->
  data !! ("tokenExpired" : str) = Some (Api.JNum ttl) ->
  (cached_expiry e (Api.login e email password area_code self).2
   == Api.utcnow e + ttl)%Q.
Proof.
  intros Hpost Httl. unfold Api.login. rewrite Hpost.
  unfold Api.get. rewrite Httl. cbn [from_option Datatypes.id Api.as_number snd].
  unfold cached_expiry, Api.set_cache. cbn [Api.cache snd].
  rewrite lookup_insert_ne
    by (let E := fresh in intros E; vm_compute in E; discriminate E).
  rewrite lookup_insert_eq. unfold Api.fromtimestamp, Api.timestamp. ring.
Qed.



(** ** Device discovery *)

Section Discovery.
Import Api Construct.

Ltac lookup_props :=
  repeat first
    [ rewrite lookup_insert_eq
    | rewrite lookup_insert_ne
        by (let E := fresh in intros E; vm_compute in E; discriminate E) ].

Lemma HomgarDevice_init_ok (h d : dev_data) :
  exists self, HomgarDevice_init (props_with_hub h d) = Ok self.
Proof.
  unfold HomgarDevice_init, arg, props_with_hub, device_base_props.
  lookup_props. cbn [bind]. eauto.
Qed.

Lemma HomgarSubDevice_init_ok (h d : dev_data) :
  exists self, HomgarSubDevice_init (props_with_hub h d) = Ok self.
Proof.
  destruct (HomgarDevice_init_ok h d) as [self Hself].
  unfold HomgarSubDevice_init. rewrite Hself.
  unfold arg, props_with_hub, device_base_props.
  lookup_props. cbn [bind]. eauto.
Qed.

(** A subdevice class is built from the properties of any record. *)
Lemma construct_subdevice (c : variant) (h d : dev_data) :
  is_hub_class c = false ->
  exists o, construct c (props_with_hub h d) None = Ok o.
Proof.
  intros Hc. destruct (HomgarSubDevice_init_ok h d) as [self Hself].
  destruct c; try discriminate; unfold construct, DiivooWT11W_init;
    rewrite Hself; cbn [bind]; eauto.
Qed.

Lemma construct_hub (c : variant) (h : dev_data) (l : list device) :
  is_hub_class c = true ->
  exists self, construct c (props_with_hub h h) (Some l) = Ok (Device c self (Some l)).
Proof.
  intros Hc. destruct (HomgarDevice_init_ok h h) as [self Hself].
  destruct c; try discriminate; unfold construct, HomgarHubDevice_init;
    rewrite Hself; cbn [bind fst snd]; eauto.
Qed.

Lemma build_subdevices_filters (h : dev_data) (l : list dev_data) :
  (forall d c, In d l -> kept d = true -> get_device_class d = Some c ->
               is_hub_class c = false) ->
  build_subdevices h l = Ok (omap (subdevice_object h) (List.filter kept l)) /\
  length (omap (subdevice_object h) (List.filter kept l))
  = length (List.filter kept l).
Proof.
  induction l as [|d l IH]; intros Hl; [now split|].
  destruct IH as [IH IHlen].
  { intros d' c Hin Hk Hcl. apply (Hl d' c); [right; exact Hin|exact Hk|exact Hcl]. }
  cbn [build_subdevices List.filter]. destruct (kept d) eqn:Hk.
  - pose proof Hk as Hk'. unfold kept in Hk'.
    apply andb_true_iff in Hk' as [Hdid Hcls].
    apply negb_true_iff in Hdid. rewrite Hdid.
    apply bool_decide_eq_true in Hcls as [c Hc]. rewrite Hc.
    assert (Hsub : is_hub_class c = false) by (apply (Hl d c); auto; now left).
    destruct (construct_subdevice c h d Hsub) as [o Ho].
    assert (Hobj : subdevice_object h d = Some o)
      by (unfold subdevice_object; now rewrite Hc, Ho).
    rewrite Ho, IH. cbn [bind omap list_omap]. rewrite Hobj.
    split; [reflexivity|]. cbn [length]. now rewrite IHlen.
  - unfold kept in Hk. apply andb_false_iff in Hk as [Hdid|Hcls].
    + apply negb_false_iff in Hdid. rewrite Hdid. now split.
    + destruct (bool_decide (did d = Some 1)); [now split|].
      destruct (get_device_class d) as [c|]; [|now split].
      rewrite bool_decide_eq_true_2 in Hcls by eauto. discriminate.
Qed.

Lemma build_hub_ok (hd : hub_data) :
  subdevices_are_subdevices hd -> hub_is_hub hd ->
  exists h, build_hub hd = Ok h /\ dev_subdevices h = Some (kept_subdevices hd).
Proof.
  intros Hsub Hhub. unfold build_hub, kept_subdevices.
  destruct (build_subdevices_filters (hub hd) (default [] (subDevices hd)) Hsub)
    as [-> _].
  cbn [bind].
  destruct (construct_hub _ (hub hd)
              (omap (subdevice_object (hub hd))
                    (List.filter kept (default [] (subDevices hd)))) Hhub)
    as [self ->].
  eauto.
Qed.

End Discovery.



(** C8, at its failing input. A listing whose hub has a subdevice record
    with device id 2 and the display hub's model code 264 makes
    [get_devices_for_hid] raise [TypeError]: a hub class called without
    its [subdevices] argument raises, whatever else it is passed; on the
    example listing the record
    with device id 1 and the record with an unmapped model code are left
    out and the irrigation timer is returned. *)
Theorem hub_code_among_subdevices_raises :
  Api.get_devices_for_hid listing_with_hub_code = Raise TypeError /\
  (forall c kw, is_hub_class c = true ->
                Construct.construct c kw None = Raise TypeError) /\
  subdevice_classes (Api.get_devices_for_hid example_listing) = Some [[DiivooWT11W]].
Proof.
  split; [vm_compute; reflexivity|]. split; [|vm_compute; reflexivity].
  intros c kw Hc. destruct c; try discriminate; reflexivity.
Qed.

(** ** The irrigation timer and the general part of a status value *)

(** [DiivooWT11W.set_device_status] hands the whole value to the hex
    decoder and never reads its general part: [rf_rssi] keeps its value on
    every record.  On the scenario's record zone 1 becomes on and active
    with duration setting 0xDC05, and [rf_rssi] stays [None]. *)
Theorem diivoo_keeps_rf_rssi :
  (forall o self,
      after (Devices.set_device_status DiivooWT11W o) self !! ("rf_rssi" : str)
      = self !! ("rf_rssi" : str)) /\
  zone_of (after (Devices.set_device_status DiivooWT11W scenario_record) example_timer) 1
  = Some (Zone true "on" 0x9AE7DE15 0xDC05) /\
  after (Devices.set_device_status DiivooWT11W scenario_record) example_timer
    !! ("rf_rssi" : str)
  = Some PNone.
Proof.
  split; [|split; vm_compute; reflexivity].
  intros o self. apply set_device_status_same_at.
  cbn. intros H. repeat destruct H as [H|H]; try discriminate H. exact H.
Qed.
